(** * EV2Gym: the EVCity simulation engine (gym_env/ev_city.py)

    A shallow embedding of [EVCity.reset] and [EVCity.step] and the
    properties of the step protocol: termination flag, reward, transformer
    aggregation, spawning of EVs and the behaviour on errors.

    Conventions.
    - Python integers are [Z]; real-valued quantities (prices, costs,
      power, satisfaction scores, battery capacities) are rationals [Q].
      No property below depends on rounding: sums are written as the left
      folds the code performs.
    - A Python method that mutates [self] and may raise becomes a function
      returning the new object together with either the returned value
      or the exception.
    - [EVCity.step] returns the engine as it is when the call ends, also when
      it ends in an exception, together with the trace of the calls it made
      on its collaborators.
    - Printing, the pickle file written by [save_sim_replay] and
      [visualize] do not touch the engine's attributes; they are left out. *)

From Stdlib Require Import ZArith QArith Qabs Bool String Sorted Lia.
From stdpp Require Import base list.

Open Scope Z_scope.

(** ** Python sequences *)

Module Py.

(** Position named by the index [i] in a sequence of length [len]: negative
    indices count from the end, anything else out of range is an
    [IndexError] ([None]). *)
Definition pos (len : nat) (i : Z) : option nat :=
  let n := Z.of_nat len in
  if (0 <=? i) && (i <? n) then Some (Z.to_nat i)
  else if (- n <=? i) && (i <? 0) then Some (Z.to_nat (i + n))
  else None.

(** [l[i]] *)
Definition index {A} (l : list A) (i : Z) : option A :=
  match pos (length l) i with
  | Some k => l !! k
  | None => None
  end.

(** [m[i, j]] on a two-dimensional numpy array, given by its rows. *)
Definition index2 {A} (m : list (list A)) (i j : Z) : option A :=
  match index m i with
  | Some row => index row j
  | None => None
  end.

(** A slice bound: negative bounds count from the end, and every bound is
    clipped to the sequence; slicing never raises. *)
Definition clamp (len : nat) (i : Z) : nat :=
  let n := Z.of_nat len in
  Z.to_nat (if i <? 0 then Z.max 0 (i + n) else Z.min i n).

(** [l[a:b]] *)
Definition slice {A} (l : list A) (a b : Z) : list A :=
  let lo := clamp (length l) a in
  let hi := clamp (length l) b in
  take (hi - lo) (drop lo l).

(** [l[a:]] *)
Definition slice_from {A} (l : list A) (a : Z) : list A :=
  drop (clamp (length l) a) l.

(** [len(l)] *)
Definition len {A} (l : list A) : Z := Z.of_nat (length l).

End Py.

(** [x < y] on real-valued quantities. *)
Definition Qltb (x y : Q) : bool :=
  match (x ?= y)%Q with
  | Lt => true
  | _ => false
  end.

(** [sum] as the code accumulates it: from [0], left to right. *)
Definition Qsum (l : list Q) : Q := fold_left Qplus l 0%Q.

(** A Python exception raised inside a collaborator, by its text. *)
Definition exn : Type := string.

(** ** EV

    The attributes [ev_city.py] passes to the constructor [EV(...)] and
    reads back ([location], [time_of_arrival]). The state of charge of a
    parked EV belongs to the station that holds it. *)
Record EV : Type := mkEV {
  ev_id : option Z;
  location : Z;
  battery_capacity_at_arrival : Q;
  time_of_arrival : Z;
  earlier_time_of_departure : Z
}.

(** ** Transformer *)

(** Modelled from the spec: the class [Transformer] (gym_env/transformer.py)
    is imported by [ev_city.py] and is defined outside it. Its
    attributes are the id, the assigned station ids, the rated capacity and
    the power aggregated in the current step; [step] accumulates a station's
    output into [current_power], [is_overloaded] is true iff that power
    exceeds the rated capacity, [get_state] gives power and capacity. *)
Record Transformer : Type := mkTransformer {
  tr_id : Z;
  cs_ids : list Z;
  max_power : Q;
  current_power : Q
}.

Module TransformerM.

(** [tr.current_power = v], the assignment [EVCity.step] makes. *)
Definition set_current_power (tr : Transformer) (v : Q) : Transformer :=
  {| tr_id := tr_id tr; cs_ids := cs_ids tr; max_power := max_power tr;
     current_power := v |}.

Definition step (tr : Transformer) (power : Q) : Transformer :=
  set_current_power tr (current_power tr + power)%Q.

Definition is_overloaded (tr : Transformer) : bool :=
  Qltb (max_power tr) (current_power tr).

Definition get_state (tr : Transformer) : list Q :=
  [current_power tr; max_power tr].

End TransformerM.

(** ** Charging stations

    The class [EV_Charger] (gym_env/ev_charger.py) and [EV.reset] are
    imported by [ev_city.py]; the engine is verified against their interface:
    the attributes it reads and the methods it calls. *)
Class Collaborators : Type := {
  EV_Charger : Type;
  (** attributes read by the engine *)
  id : EV_Charger -> Z;
  n_ports : EV_Charger -> Z;
  connected_transformer : EV_Charger -> Z;
  n_evs_connected : EV_Charger -> Z;
  current_power_output : EV_Charger -> Q;
  (** [cs.step(actions, charge_price, discharge_price)] returns
      [(costs, user_satisfaction)] *)
  cs_step : EV_Charger -> list Q -> Q -> Q -> EV_Charger * (exn + (Q * list Q));
  (** [cs.spawn_ev(ev)] *)
  spawn_ev : EV_Charger -> EV -> EV_Charger * option exn;
  (** [cs.reset()] *)
  cs_reset : EV_Charger -> EV_Charger;
  (** [cs.get_state()] *)
  cs_get_state : EV_Charger -> list Q;
  (** [ev.reset()] *)
  ev_reset : EV -> EV
}.

(** ** The engine *)

(** The attributes of [EVCity] that [__init__] fixes and no method changes.
    The price matrices are indexed by (station id, step). *)
Record Config : Type := mkConfig {
  generate_rnd_game : bool;
  save_replay : bool;
  simulation_length : Z;
  cs : Z;
  score_threshold : Q;
  timescale : Z;
  simulate_grid : bool;
  charge_prices : list (list Q);
  discharge_prices : list (list Q);
  number_of_ports : Z
}.

Section Engine.

Context {C : Collaborators}.

(** The attributes that [reset] and [step] assign. [sim_date] counts minutes;
    [EVs] is the list kept when [save_replay] is set; [spawn_rate] is
    created by the first spawning attempt. *)
Record EVCity : Type := mkEVCity {
  config : Config;
  empty_ports_at_end_of_simulation : bool;
  sim_date : Z;
  transformers : list Transformer;
  charging_stations : list EV_Charger;
  ev_profiles : option (list EV);
  current_step : Z;
  total_evs_spawned : Z;
  current_ev_departed : Z;
  current_ev_arrived : Z;
  current_evs_parked : Z;
  done : bool;
  EVs : list EV;
  spawn_rate : option Q
}.

Definition set_empty_ports_at_end_of_simulation (self : EVCity) (v : bool) : EVCity :=
  {| config := config self;
     empty_ports_at_end_of_simulation := v;
     sim_date := sim_date self;
     transformers := transformers self;
     charging_stations := charging_stations self;
     ev_profiles := ev_profiles self;
     current_step := current_step self;
     total_evs_spawned := total_evs_spawned self;
     current_ev_departed := current_ev_departed self;
     current_ev_arrived := current_ev_arrived self;
     current_evs_parked := current_evs_parked self;
     done := done self;
     EVs := EVs self;
     spawn_rate := spawn_rate self |}.

Definition set_sim_date (self : EVCity) (v : Z) : EVCity :=
  {| config := config self;
     empty_ports_at_end_of_simulation := empty_ports_at_end_of_simulation self;
     sim_date := v;
     transformers := transformers self;
     charging_stations := charging_stations self;
     ev_profiles := ev_profiles self;
     current_step := current_step self;
     total_evs_spawned := total_evs_spawned self;
     current_ev_departed := current_ev_departed self;
     current_ev_arrived := current_ev_arrived self;
     current_evs_parked := current_evs_parked self;
     done := done self;
     EVs := EVs self;
     spawn_rate := spawn_rate self |}.

Definition set_transformers (self : EVCity) (v : list Transformer) : EVCity :=
  {| config := config self;
     empty_ports_at_end_of_simulation := empty_ports_at_end_of_simulation self;
     sim_date := sim_date self;
     transformers := v;
     charging_stations := charging_stations self;
     ev_profiles := ev_profiles self;
     current_step := current_step self;
     total_evs_spawned := total_evs_spawned self;
     current_ev_departed := current_ev_departed self;
     current_ev_arrived := current_ev_arrived self;
     current_evs_parked := current_evs_parked self;
     done := done self;
     EVs := EVs self;
     spawn_rate := spawn_rate self |}.

Definition set_charging_stations (self : EVCity) (v : list EV_Charger) : EVCity :=
  {| config := config self;
     empty_ports_at_end_of_simulation := empty_ports_at_end_of_simulation self;
     sim_date := sim_date self;
     transformers := transformers self;
     charging_stations := v;
     ev_profiles := ev_profiles self;
     current_step := current_step self;
     total_evs_spawned := total_evs_spawned self;
     current_ev_departed := current_ev_departed self;
     current_ev_arrived := current_ev_arrived self;
     current_evs_parked := current_evs_parked self;
     done := done self;
     EVs := EVs self;
     spawn_rate := spawn_rate self |}.

Definition set_ev_profiles (self : EVCity) (v : option (list EV)) : EVCity :=
  {| config := config self;
     empty_ports_at_end_of_simulation := empty_ports_at_end_of_simulation self;
     sim_date := sim_date self;
     transformers := transformers self;
     charging_stations := charging_stations self;
     ev_profiles := v;
     current_step := current_step self;
     total_evs_spawned := total_evs_spawned self;
     current_ev_departed := current_ev_departed self;
     current_ev_arrived := current_ev_arrived self;
     current_evs_parked := current_evs_parked self;
     done := done self;
     EVs := EVs self;
     spawn_rate := spawn_rate self |}.

Definition set_current_step (self : EVCity) (v : Z) : EVCity :=
  {| config := config self;
     empty_ports_at_end_of_simulation := empty_ports_at_end_of_simulation self;
     sim_date := sim_date self;
     transformers := transformers self;
     charging_stations := charging_stations self;
     ev_profiles := ev_profiles self;
     current_step := v;
     total_evs_spawned := total_evs_spawned self;
     current_ev_departed := current_ev_departed self;
     current_ev_arrived := current_ev_arrived self;
     current_evs_parked := current_evs_parked self;
     done := done self;
     EVs := EVs self;
     spawn_rate := spawn_rate self |}.

Definition set_total_evs_spawned (self : EVCity) (v : Z) : EVCity :=
  {| config := config self;
     empty_ports_at_end_of_simulation := empty_ports_at_end_of_simulation self;
     sim_date := sim_date self;
     transformers := transformers self;
     charging_stations := charging_stations self;
     ev_profiles := ev_profiles self;
     current_step := current_step self;
     total_evs_spawned := v;
     current_ev_departed := current_ev_departed self;
     current_ev_arrived := current_ev_arrived self;
     current_evs_parked := current_evs_parked self;
     done := done self;
     EVs := EVs self;
     spawn_rate := spawn_rate self |}.

Definition set_current_ev_departed (self : EVCity) (v : Z) : EVCity :=
  {| config := config self;
     empty_ports_at_end_of_simulation := empty_ports_at_end_of_simulation self;
     sim_date := sim_date self;
     transformers := transformers self;
     charging_stations := charging_stations self;
     ev_profiles := ev_profiles self;
     current_step := current_step self;
     total_evs_spawned := total_evs_spawned self;
     current_ev_departed := v;
     current_ev_arrived := current_ev_arrived self;
     current_evs_parked := current_evs_parked self;
     done := done self;
     EVs := EVs self;
     spawn_rate := spawn_rate self |}.

Definition set_current_ev_arrived (self : EVCity) (v : Z) : EVCity :=
  {| config := config self;
     empty_ports_at_end_of_simulation := empty_ports_at_end_of_simulation self;
     sim_date := sim_date self;
     transformers := transformers self;
     charging_stations := charging_stations self;
     ev_profiles := ev_profiles self;
     current_step := current_step self;
     total_evs_spawned := total_evs_spawned self;
     current_ev_departed := current_ev_departed self;
     current_ev_arrived := v;
     current_evs_parked := current_evs_parked self;
     done := done self;
     EVs := EVs self;
     spawn_rate := spawn_rate self |}.

Definition set_current_evs_parked (self : EVCity) (v : Z) : EVCity :=
  {| config := config self;
     empty_ports_at_end_of_simulation := empty_ports_at_end_of_simulation self;
     sim_date := sim_date self;
     transformers := transformers self;
     charging_stations := charging_stations self;
     ev_profiles := ev_profiles self;
     current_step := current_step self;
     total_evs_spawned := total_evs_spawned self;
     current_ev_departed := current_ev_departed self;
     current_ev_arrived := current_ev_arrived self;
     current_evs_parked := v;
     done := done self;
     EVs := EVs self;
     spawn_rate := spawn_rate self |}.

Definition set_done (self : EVCity) (v : bool) : EVCity :=
  {| config := config self;
     empty_ports_at_end_of_simulation := empty_ports_at_end_of_simulation self;
     sim_date := sim_date self;
     transformers := transformers self;
     charging_stations := charging_stations self;
     ev_profiles := ev_profiles self;
     current_step := current_step self;
     total_evs_spawned := total_evs_spawned self;
     current_ev_departed := current_ev_departed self;
     current_ev_arrived := current_ev_arrived self;
     current_evs_parked := current_evs_parked self;
     done := v;
     EVs := EVs self;
     spawn_rate := spawn_rate self |}.

Definition set_EVs (self : EVCity) (v : list EV) : EVCity :=
  {| config := config self;
     empty_ports_at_end_of_simulation := empty_ports_at_end_of_simulation self;
     sim_date := sim_date self;
     transformers := transformers self;
     charging_stations := charging_stations self;
     ev_profiles := ev_profiles self;
     current_step := current_step self;
     total_evs_spawned := total_evs_spawned self;
     current_ev_departed := current_ev_departed self;
     current_ev_arrived := current_ev_arrived self;
     current_evs_parked := current_evs_parked self;
     done := done self;
     EVs := v;
     spawn_rate := spawn_rate self |}.

Definition set_spawn_rate (self : EVCity) (v : option Q) : EVCity :=
  {| config := config self;
     empty_ports_at_end_of_simulation := empty_ports_at_end_of_simulation self;
     sim_date := sim_date self;
     transformers := transformers self;
     charging_stations := charging_stations self;
     ev_profiles := ev_profiles self;
     current_step := current_step self;
     total_evs_spawned := total_evs_spawned self;
     current_ev_departed := current_ev_departed self;
     current_ev_arrived := current_ev_arrived self;
     current_evs_parked := current_evs_parked self;
     done := done self;
     EVs := EVs self;
     spawn_rate := v |}.

(** [self.charging_stations[pos]] after a method mutated it in place. *)
Definition set_station (self : EVCity) (pos : nat) (c : EV_Charger) : EVCity :=
  set_charging_stations self (<[pos := c]> (charging_stations self)).

(** *** Exceptions, results and traces *)

(** The exceptions raised by statements of [ev_city.py] itself. *)
Inductive EngineError : Type :=
| AssertionError_episode_done
| IndexError_prices
| IndexError_transformers
| IndexError_charging_stations
| ValueError_max_stay
| NotImplementedError_grid.

Definition newline : string := String (Ascii.ascii_of_nat 10) EmptyString.

(** The text the exception carries, where the code gives one. *)
Definition message (e : EngineError) : string :=
  match e with
  | AssertionError_episode_done =>
      "Episode is done, please reset the environment"
  | ValueError_max_stay =>
      "The maximum stay of an EV is greater than the simulation length! "
      ++ newline
      ++ "Please increase the simulation length or disable the empty_ports_at_end_of_simulation option"
  | _ => ""
  end%string.

(** How a call ends in an exception: raised by the engine, or raised inside
    [cs.step] or [cs.spawn_ev] and propagated. *)
Inductive Error : Type :=
| Engine (e : EngineError)
| In_cs_step (e : exn)
| In_spawn_ev (e : exn).

(** The calls the engine makes on a station, in order: the position of the
    station in [self.charging_stations], the station before the call, the
    arguments, the station after the call and what the call gave. *)
Inductive Event : Type :=
| CsStep (pos : nat) (before : EV_Charger) (actions : list Q)
         (charge_price discharge_price : Q)
         (after : EV_Charger) (ret : exn + (Q * list Q))
| SpawnEv (pos : nat) (before : EV_Charger) (ev : EV)
          (after : EV_Charger) (ret : option exn).

(** The values of [np.random.rand()], [np.random.uniform(1, 49)] and
    [np.random.randint(7, max_stay_of_ev)] for one spawning attempt. *)
Record Draw : Type := mkDraw {
  rand : Q;
  uniform_1_49 : Q;
  randint_7_max_stay : Z
}.

(** The arguments of [step] and the random generator it consults: the
    draws of the spawning attempt at each station position. *)
Record Input : Type := mkInput {
  actions : list Q;
  np_random : nat -> Draw
}.

(** What numpy documents of the three generators: half-open ranges. *)
Definition numpy_contract (d : Draw) : Prop :=
  (0 <= rand d)%Q /\ (rand d < 1)%Q /\
  (1 <= uniform_1_49 d)%Q /\ (uniform_1_49 d < 49)%Q /\
  7 <= randint_7_max_stay d < 15.

Inductive Outcome : Type :=
| Returned (observation : list Q) (reward : Q) (done_flag : bool)
| Raised (e : Error).

(** The local variables of [step] while it loops, the engine and the trace. *)
Record Loop : Type := mkLoop {
  self : EVCity;
  total_costs : Q;
  user_satisfaction_list : list Q;
  port_counter : Z;
  trace : list Event
}.

Definition with_self (L : Loop) (s : EVCity) : Loop :=
  {| self := s; total_costs := total_costs L;
     user_satisfaction_list := user_satisfaction_list L;
     port_counter := port_counter L; trace := trace L |}.

Definition log (L : Loop) (e : Event) : Loop :=
  {| self := self L; total_costs := total_costs L;
     user_satisfaction_list := user_satisfaction_list L;
     port_counter := port_counter L; trace := trace L ++ [e] |}.

(** *** Observation and reward *)

Definition _get_observation (s : EVCity) : list Q :=
  [inject_Z (current_step s); inject_Z (timescale (config s));
   inject_Z (cs (config s))]
  ++ concat (map TransformerM.get_state (transformers s))
  ++ concat (map cs_get_state (charging_stations s)).

Definition _calculate_reward (total_costs : Q) (user_satisfaction_list : list Q) : Q :=
  let reward := total_costs in
  reward.

Definition _step_date (s : EVCity) : EVCity :=
  set_sim_date s (sim_date s + timescale (config s)).

(** *** reset *)

Definition reset (s : EVCity) : list Q * EVCity :=
  let s := set_current_step s 0 in
  let s := set_charging_stations s (map cs_reset (charging_stations s)) in
  (_get_observation s, s).

(** *** step *)

Definition max_stay_of_ev : Z := 15.

(** The spawning block of the station loop (random mode), for the station
    [c] at position [pos], [n] being the local [n_ports]. *)
Definition spawn_random (inp : Input) (pos : nat) (n : Z) (c : EV_Charger)
    (L : Loop) : Loop * option Error :=
  let s := self L in
  match ev_profiles s with
  | Some _ => (L, None)
  | None =>
      if max_stay_of_ev >? simulation_length (config s) then
        (with_self L (set_empty_ports_at_end_of_simulation s false),
         Some (Engine ValueError_max_stay))
      else if negb (empty_ports_at_end_of_simulation s
                    && (current_step s + 1 + max_stay_of_ev
                        >=? simulation_length (config s)))
              && (n >? n_evs_connected c) then
        let s := set_spawn_rate s (Some 0.8%Q) in
        let d := np_random inp pos in
        if Qltb (rand d) 0.8%Q then
          let ev := {| ev_id := None;
                       location := id c;
                       battery_capacity_at_arrival := uniform_1_49 d;
                       time_of_arrival := current_step s + 1;
                       earlier_time_of_departure :=
                         current_step s + 1 + randint_7_max_stay d |} in
          let '(c', r) := spawn_ev c ev in
          let L := log (with_self L (set_station s pos c'))
                       (SpawnEv pos c ev c' r) in
          match r with
          | Some e => (L, Some (In_spawn_ev e))
          | None =>
              let s := self L in
              let s := if save_replay (config s)
                       then set_EVs s (EVs s ++ [ev]) else s in
              let s := set_total_evs_spawned s (total_evs_spawned s + 1) in
              let s := set_current_ev_arrived s (current_ev_arrived s + 1) in
              (with_self L s, None)
          end
        else (with_self L s, None)
      else (L, None)
  end.

(** One iteration of [for cs in self.charging_stations], [c] being the
    station at position [pos]. *)
Definition station_body (inp : Input) (pos : nat) (c : EV_Charger)
    (L : Loop) : Loop * option Error :=
  let s := self L in
  let n := n_ports c in
  let acts := Py.slice (actions inp) (port_counter L) (port_counter L + n) in
  match Py.index2 (charge_prices (config s)) (id c) (current_step s) with
  | None => (L, Some (Engine IndexError_prices))
  | Some cp =>
  match Py.index2 (discharge_prices (config s)) (id c) (current_step s) with
  | None => (L, Some (Engine IndexError_prices))
  | Some dp =>
      let '(c', r) := cs_step c acts cp dp in
      let L := log (with_self L (set_station s pos c'))
                   (CsStep pos c acts cp dp c' r) in
      match r with
      | inl e => (L, Some (In_cs_step e))
      | inr (costs, user_satisfaction) =>
          let usl := user_satisfaction_list L ++ user_satisfaction in
          let s := self L in
          match Py.pos (length (transformers s)) (connected_transformer c') with
          | None =>
              ({| self := s; total_costs := total_costs L;
                  user_satisfaction_list := usl;
                  port_counter := port_counter L; trace := trace L |},
               Some (Engine IndexError_transformers))
          | Some k =>
              let s := set_transformers s
                         (alter (fun tr => TransformerM.step tr (current_power_output c'))
                                k (transformers s)) in
              let s := set_current_ev_departed s
                         (current_ev_departed s + Py.len user_satisfaction) in
              spawn_random inp pos n c'
                {| self := s; total_costs := (total_costs L + costs)%Q;
                   user_satisfaction_list := usl;
                   port_counter := port_counter L + n; trace := trace L |}
          end
      end
  end
  end.

Fixpoint station_loop (inp : Input) (pos : nat) (todo : list EV_Charger)
    (L : Loop) : Loop * option Error :=
  match todo with
  | [] => (L, None)
  | c :: rest =>
      match station_body inp pos c L with
      | (L, None) => station_loop inp (S pos) rest L
      | r => r
      end
  end.

(** [for i, ev in enumerate(self.ev_profiles[counter:])], [i] being the
    position of [ev] in [self.ev_profiles]. *)
Fixpoint profile_loop (i : nat) (todo : list EV) (L : Loop)
    : Loop * option Error :=
  match todo with
  | [] => (L, None)
  | ev :: rest =>
      let s := self L in
      if time_of_arrival ev =? current_step s + 1 then
        let ev := ev_reset ev in
        let s := set_ev_profiles s ((fun l => <[i := ev]> l) <$> ev_profiles s) in
        match Py.pos (length (charging_stations s)) (location ev) with
        | None => (with_self L s, Some (Engine IndexError_charging_stations))
        | Some k =>
            match charging_stations s !! k with
            | None => (with_self L s, Some (Engine IndexError_charging_stations))
            | Some c =>
                let '(c', r) := spawn_ev c ev in
                let L := log (with_self L (set_station s k c'))
                             (SpawnEv k c ev c' r) in
                match r with
                | Some e => (L, Some (In_spawn_ev e))
                | None =>
                    let s := self L in
                    let s := set_total_evs_spawned s (total_evs_spawned s + 1) in
                    let s := set_current_ev_arrived s (current_ev_arrived s + 1) in
                    let s := if save_replay (config s)
                             then set_EVs s (EVs s ++ [ev]) else s in
                    profile_loop (S i) rest (with_self L s)
                end
            end
        end
      else if time_of_arrival ev >? current_step s + 1 then (L, None)
      else profile_loop (S i) rest L
  end.

(** The spawning block after the station loop (profile mode). *)
Definition spawn_profiles (L : Loop) : Loop * option Error :=
  match ev_profiles (self L) with
  | None => (L, None)
  | Some profiles =>
      let counter := total_evs_spawned (self L) in
      profile_loop (Py.clamp (length profiles) counter)
                   (Py.slice_from profiles counter) L
  end.

(** The termination test. *)
Definition episode_is_done (s : EVCity) (user_satisfaction_list : list Q) : bool :=
  (current_step s >=? simulation_length (config s))
  || existsb (fun score => Qltb score (score_threshold (config s)))
             user_satisfaction_list
  || (existsb TransformerM.is_overloaded (transformers s)
      && negb (generate_rnd_game (config s))).

(** The step counter, the simulated date and the count of parked EVs
    move on. *)
Definition advance (s : EVCity) : EVCity :=
  let s := set_current_step s (current_step s + 1) in
  let s := _step_date s in
  set_current_evs_parked s
    (current_evs_parked s + (current_ev_arrived s - current_ev_departed s)).

(** From [self.current_step += 1] to the end of [step]. *)
Definition finish (L : Loop) : Outcome * EVCity :=
  let s := advance (self L) in
  if simulate_grid (config s) then
    (Raised (Engine NotImplementedError_grid), s)
  else
    let reward := _calculate_reward (total_costs L) (user_satisfaction_list L) in
    if episode_is_done s (user_satisfaction_list L) then
      let s := set_done s true in
      (Returned (_get_observation s) reward true, s)
    else
      (Returned (_get_observation s) reward false, s).

(** From the first assignment of [step] to the station loop: the locals
    are initialised, the per-step counters and every transformer's
    [current_power] are set to zero. *)
Definition begin (s : EVCity) : Loop :=
  let s := set_current_ev_departed s 0 in
  let s := set_current_ev_arrived s 0 in
  let s := set_transformers s
             (map (fun tr => TransformerM.set_current_power tr 0%Q)
                  (transformers s)) in
  {| self := s; total_costs := 0%Q; user_satisfaction_list := [];
     port_counter := 0; trace := [] |}.

Definition step (s : EVCity) (inp : Input) : Outcome * EVCity * list Event :=
  if done s then
    (Raised (Engine AssertionError_episode_done), s, [])
  else
    let L := begin s in
    match station_loop inp 0 (charging_stations (self L)) L with
    | (L, Some e) => (Raised e, self L, trace L)
    | (L, None) =>
        match spawn_profiles L with
        | (L, Some e) => (Raised e, self L, trace L)
        | (L, None) => (finish L, trace L)
        end
    end.

(** *** Reading a trace *)

(** The satisfaction scores the stations returned, in order. *)
Fixpoint scores (tr : list Event) : list Q :=
  match tr with
  | [] => []
  | CsStep _ _ _ _ _ _ (inr (_, user_satisfaction)) :: tr =>
      user_satisfaction ++ scores tr
  | _ :: tr => scores tr
  end.

(** The costs the stations returned, in order. *)
Fixpoint costs (tr : list Event) : list Q :=
  match tr with
  | [] => []
  | CsStep _ _ _ _ _ _ (inr (c, _)) :: tr => c :: costs tr
  | _ :: tr => costs tr
  end.

(** The stations as their [step] left them, in order. *)
Fixpoint reports (tr : list Event) : list EV_Charger :=
  match tr with
  | [] => []
  | CsStep _ _ _ _ _ after (inr _) :: tr => after :: reports tr
  | _ :: tr => reports tr
  end.

(** The calls of [spawn_ev]: position of the station, the station as it was
    when called, and the EV. *)
Fixpoint spawns (tr : list Event) : list (nat * EV_Charger * EV) :=
  match tr with
  | [] => []
  | SpawnEv pos before ev _ _ :: tr => (pos, before, ev) :: spawns tr
  | _ :: tr => spawns tr
  end.

(** The stations on which [step] was called, as they were before. *)
Fixpoint stepped (tr : list Event) : list EV_Charger :=
  match tr with
  | [] => []
  | CsStep _ before _ _ _ _ _ :: tr => before :: stepped tr
  | _ :: tr => stepped tr
  end.

(** An event records a call truly: what it says the call gave is what the
    method gives on that station and those arguments. *)
Definition faithful (e : Event) : Prop :=
  match e with
  | CsStep _ before acts cp dp after ret =>
      cs_step before acts cp dp = (after, ret)
  | SpawnEv _ before ev after ret => spawn_ev before ev = (after, ret)
  end.

(** The station's [connected_transformer] names the transformer at
    position [k] of [n] transformers. *)
Definition feeds (n k : nat) (c : EV_Charger) : bool :=
  match Py.pos n (connected_transformer c) with
  | Some k' => Nat.eqb k' k
  | None => false
  end.

(** The power the stations in [l] put on transformer [k]. *)
Definition load (n k : nat) (l : list EV_Charger) : Q :=
  Qsum (map current_power_output (List.filter (feeds n k) l)).

(** The total port count: the sum [__init__] stores as
    [number_of_ports]. *)
Definition total_ports (s : EVCity) : Z :=
  fold_right Z.add 0 (map n_ports (charging_stations s)).

(** *** Episodes *)

(** Consecutive calls of [step], one per input, with what each gave. *)
Fixpoint run (s : EVCity) (inps : list Input) : list Outcome * EVCity :=
  match inps with
  | [] => ([], s)
  | inp :: inps =>
      let '(o, s', _) := step s inp in
      let '(os, s'') := run s' inps in
      (o :: os, s'')
  end.

Definition returned (o : Outcome) : bool :=
  match o with
  | Returned _ _ _ => true
  | Raised _ => false
  end.

Definition returned_done (o : Outcome) : bool :=
  match o with
  | Returned _ _ d => d
  | Raised _ => false
  end.

End Engine.

(** ** A station double

    The examples below run the engine on the station mock of the spec's
    testable properties: its [step] reports a cost, a list of satisfaction
    scores and a power output that are fixed in advance. *)

(** Modelled from the spec: the class [EV_Charger] (gym_env/ev_charger.py)
    is imported by [ev_city.py] and defined outside it. The double has the
    station's identity, its ports (each empty or holding one EV) and its
    power output. [step] takes one action per port and rejects any other
    slice; [spawn_ev] assigns the EV to the first free port and fails when no
    port is free; [reset] empties all ports; [get_state] gives the occupancy
    flags. With [m_costs = 0], no score and [m_power = 0] the double is a
    station that idles. *)
Record Mock : Type := mkMock {
  m_id : Z;
  m_connected_transformer : Z;
  m_n_ports : Z;
  evs_connected : list (option EV);
  m_current_power_output : Q;
  m_costs : Q;
  m_user_satisfaction : list Q;
  m_power : Q
}.

Module MockM.

Definition set_ports (m : Mock) (ports : list (option EV)) : Mock :=
  {| m_id := m_id m; m_connected_transformer := m_connected_transformer m;
     m_n_ports := m_n_ports m; evs_connected := ports;
     m_current_power_output := m_current_power_output m;
     m_costs := m_costs m; m_user_satisfaction := m_user_satisfaction m;
     m_power := m_power m |}.

Definition set_output (m : Mock) (p : Q) : Mock :=
  {| m_id := m_id m; m_connected_transformer := m_connected_transformer m;
     m_n_ports := m_n_ports m; evs_connected := evs_connected m;
     m_current_power_output := p;
     m_costs := m_costs m; m_user_satisfaction := m_user_satisfaction m;
     m_power := m_power m |}.

Fixpoint occupied (ports : list (option EV)) : Z :=
  match ports with
  | [] => 0
  | Some _ :: rest => 1 + occupied rest
  | None :: rest => occupied rest
  end.

Definition n_evs_connected (m : Mock) : Z := occupied (evs_connected m).

Definition step (m : Mock) (actions : list Q) (charge_price discharge_price : Q)
    : Mock * (exn + (Q * list Q)) :=
  if Py.len actions =? m_n_ports m then
    (set_output m (m_power m), inr (m_costs m, m_user_satisfaction m))
  else (m, inl "one action per port"%string).

(** The ports with the first free one taken by [ev], if one is free. *)
Fixpoint occupy (ports : list (option EV)) (ev : EV) : option (list (option EV)) :=
  match ports with
  | [] => None
  | None :: rest => Some (Some ev :: rest)
  | Some e :: rest =>
      match occupy rest ev with
      | Some rest' => Some (Some e :: rest')
      | None => None
      end
  end.

Definition spawn_ev (m : Mock) (ev : EV) : Mock * option exn :=
  match occupy (evs_connected m) ev with
  | Some ports => (set_ports m ports, None)
  | None => (m, Some "no free port"%string)
  end.

Definition reset (m : Mock) : Mock :=
  set_output (set_ports m (map (fun _ => None) (evs_connected m))) 0%Q.

Definition get_state (m : Mock) : list Q :=
  map (fun p : option EV => match p with Some _ => 1%Q | None => 0%Q end)
      (evs_connected m).

End MockM.

Definition mock : Collaborators := {|
  EV_Charger := Mock;
  id := m_id;
  n_ports := m_n_ports;
  connected_transformer := m_connected_transformer;
  n_evs_connected := MockM.n_evs_connected;
  current_power_output := m_current_power_output;
  cs_step := MockM.step;
  spawn_ev := MockM.spawn_ev;
  cs_reset := MockM.reset;
  cs_get_state := MockM.get_state;
  ev_reset := fun ev => ev
|}.

(** ** Vocabulary of the properties *)

Section Vocabulary.

Context {C : Collaborators}.

(** What no iteration of a loop of [step] changes. *)
Definition same_frame (s s' : EVCity) : Prop :=
  config s' = config s /\ current_step s' = current_step s /\
  done s' = done s /\ sim_date s' = sim_date s /\
  current_evs_parked s' = current_evs_parked s /\
  length (transformers s') = length (transformers s) /\
  length (charging_stations s') = length (charging_stations s) /\
  (ev_profiles s = None <-> ev_profiles s' = None).

(** The station part of a trace: what the profile loop leaves alone. *)
Definition station_part (tr : list Event)
    : list Q * list Q * list EV_Charger * list EV_Charger :=
  (scores tr, costs tr, reports tr, stepped tr).

(** The locals [total_costs] and [user_satisfaction_list] hold what the
    stations returned so far. *)
Definition locals_follow_trace (L : Loop) : Prop :=
  user_satisfaction_list L = scores (trace L)
  /\ total_costs L = Qsum (costs (trace L)).

(** While the loop runs normally, the stations stepped so far and those
    still to do make up the station list, and each of them returned. *)
Definition covers (stations : list EV_Charger) (pos : nat)
    (todo : list EV_Charger) (L : Loop) : Prop :=
  stepped (trace L) ++ todo = stations
  /\ length (stepped (trace L)) = pos
  /\ length (costs (trace L)) = pos
  /\ length (reports (trace L)) = pos.

(** Every transformer holds the power of the stations that reported to it
    so far in this step. *)
Definition aggregated (n : nat) (L : Loop) : Prop :=
  length (transformers (self L)) = n
  /\ forall k t, transformers (self L) !! k = Some t ->
                 current_power t = load n k (reports (trace L)).

(** What a transformer's load depends on in a station. *)
Definition wiring (c : EV_Charger) : Z * Q :=
  (connected_transformer c, current_power_output c).

(** The stations of the engine are wired as the reports of those already
    stepped, followed by those still to do. *)
Definition wired (pos : nat) (todo : list EV_Charger) (L : Loop) : Prop :=
  wiring <$> charging_stations (self L)
  = (wiring <$> reports (trace L)) ++ (wiring <$> todo)
  /\ length (reports (trace L)) = pos.

(** [spawn_ev] leaves the station's power output and transformer alone. *)
Definition spawn_keeps_wiring : Prop :=
  forall c ev, wiring (fst (spawn_ev c ev)) = wiring c.

(** What the code fixes of a spawning call in random mode, for the engine
    [s0] at the start of the step: the EV it builds, the draw that decided
    to spawn, and the two tests that let it through. *)
Definition random_spawn (inp : Input) (s0 : EVCity)
    (x : nat * EV_Charger * EV) : Prop :=
  let '(pos, c, ev) := x in
  let d := np_random inp pos in
  ev = {| ev_id := None; location := id c;
          battery_capacity_at_arrival := uniform_1_49 d;
          time_of_arrival := current_step s0 + 1;
          earlier_time_of_departure :=
            current_step s0 + 1 + randint_7_max_stay d |}
  /\ Qltb (rand d) 0.8%Q = true
  /\ (exists c0, charging_stations s0 !! pos = Some c0
                 /\ n_evs_connected c < n_ports c0)
  /\ (empty_ports_at_end_of_simulation s0
      && (current_step s0 + 1 + max_stay_of_ev
          >=? simulation_length (config s0)) = false)
  /\ simulation_length (config s0) >= max_stay_of_ev.

(** The position of the station on which [spawn_ev] was called. *)
Definition spawn_position (x : nat * EV_Charger * EV) : nat := fst (fst x).

(** The part of the engine the spawning tests read stays as it was while
    the station loop runs normally in random mode. *)
Definition random_mode (s0 : EVCity) (pos : nat) (todo : list EV_Charger)
    (L : Loop) : Prop :=
  todo = drop pos (charging_stations s0)
  /\ current_step (self L) = current_step s0
  /\ config (self L) = config s0
  /\ empty_ports_at_end_of_simulation (self L)
     = empty_ports_at_end_of_simulation s0
  /\ ev_profiles (self L) = None.

(** The spawning calls made so far are of that kind, at most one per
    station, and all at stations before position [pos]. *)
Definition spawned_below (inp : Input) (s0 : EVCity) (pos : nat) (L : Loop)
    : Prop :=
  Forall (random_spawn inp s0) (spawns (trace L))
  /\ Forall (fun x => (spawn_position x < pos)%nat) (spawns (trace L))
  /\ NoDup (map spawn_position (spawns (trace L))).

(** The maximum-stay error is out of reach once an iteration has ended
    normally. *)
Definition past_max_stay_test (L : Loop) : Prop :=
  ev_profiles (self L) <> None
  \/ simulation_length (config (self L)) >= max_stay_of_ev.

(** The first station's call goes through: its prices are there, its
    [step] returns and its transformer exists. *)
Definition first_station_steps (inp : Input) (s : EVCity) : Prop :=
  exists c rest cp dp c' ret k,
    charging_stations s = c :: rest
    /\ Py.index2 (charge_prices (config s)) (id c) (current_step s) = Some cp
    /\ Py.index2 (discharge_prices (config s)) (id c) (current_step s)
       = Some dp
    /\ cs_step c (Py.slice (actions inp) 0 (n_ports c)) cp dp = (c', inr ret)
    /\ Py.pos (length (transformers s)) (connected_transformer c') = Some k.

(** [cs.step] returns only when it is handed one action per port. *)
Definition one_action_per_port : Prop :=
  forall c acts cp dp c' ret,
    cs_step c acts cp dp = (c', inr ret) -> Py.len acts = n_ports c.

(** While the stations accept their slices, the port counter stays
    within the action vector. *)
Definition within_actions (inp : Input) (total : Z) (pos : nat)
    (todo : list EV_Charger) (L : Loop) : Prop :=
  0 <= port_counter L <= Py.len (actions inp)
  /\ port_counter L + fold_right Z.add 0 (map n_ports todo) = total.

End Vocabulary.

(** ** Example engines *)

Module Ex.

#[local] Existing Instance mock.

(** A station double that idles: no cost, no score, no power. *)
Definition idle (i transformer ports : Z) (slots : list (option EV)) : Mock :=
  mkMock i transformer ports slots 0%Q 0%Q [] 0%Q.

(** A station double that reports the given cost, scores and power. *)
Definition busy (i transformer : Z) (cost : Q) (sat : list Q) (power : Q) : Mock :=
  mkMock i transformer 1 [None] 0%Q cost sat power.

Definition prices (stations steps : nat) (v : Q) : list (list Q) :=
  repeat (repeat v steps) stations.

Definition config_of (len : Z) (stations : nat) (ports : Z) : Config :=
  {| generate_rnd_game := false; save_replay := true;
     simulation_length := len; cs := Z.of_nat stations;
     score_threshold := 1%Q; timescale := 5; simulate_grid := false;
     charge_prices := prices stations (Z.to_nat len) (-0.05)%Q;
     discharge_prices := prices stations (Z.to_nat len) 0.1%Q;
     number_of_ports := ports |}.

(** The engine as [__init__] leaves it. *)
Definition fresh (cfg : Config) (trs : list Transformer)
    (stations : list Mock) (profiles : option (list EV)) : @EVCity mock :=
  {| config := cfg; empty_ports_at_end_of_simulation := true; sim_date := 0;
     transformers := trs; charging_stations := stations;
     ev_profiles := profiles;
     current_step := 0; total_evs_spawned := 0; current_ev_departed := 0;
     current_ev_arrived := 0; current_evs_parked := 0; done := false;
     EVs := []; spawn_rate := None |}.

Definition one_transformer : list Transformer := [mkTransformer 0 [0] 100%Q 0%Q].

Definition draws (r u : Q) (k : Z) : nat -> Draw := fun _ => mkDraw r u k.

Definition idle_input : Input := mkInput [0%Q] (draws 0.5%Q 20%Q 8).

(** Two steps long, one station with one port, an empty EV profile. *)
Definition replay_city : @EVCity mock :=
  fresh (config_of 2 1 1) one_transformer [idle 0 0 1 [None]] (Some []).

(** Twenty steps long, one station with two ports, random spawning. *)
Definition random_city : @EVCity mock :=
  fresh (config_of 20 1 2) one_transformer [idle 0 0 2 [None; None]] None.

Definition random_input : Input := mkInput [0%Q; 0%Q] (draws 0.5%Q 20%Q 8).

(** Ten steps long (less than the maximum stay), random spawning. *)
Definition short_city : @EVCity mock :=
  fresh (config_of 10 1 1) one_transformer [idle 0 0 1 [None]] None.

(** An engine whose episode has finished. *)
Definition finished_city : @EVCity mock := set_done replay_city true.

(** Two stations on two transformers, reporting costs 2 and 5, powers 3
    and 4, and one satisfaction score each. *)
Definition two_stations : @EVCity mock :=
  fresh (config_of 20 2 2)
        [mkTransformer 0 [0] 100%Q 7%Q; mkTransformer 1 [1] 100%Q 9%Q]
        [busy 0 0 2%Q [1%Q] 3%Q; busy 1 1 5%Q [1%Q] 4%Q] (Some []).

Definition two_actions : Input := mkInput [0.5%Q; (-0.5)%Q] (draws 0.5%Q 20%Q 8).

(** Two EVs of the profile arrive at step 1 at the only port of
    station 0. *)
Definition ev_a : EV := mkEV None 0 20%Q 1 9.
Definition ev_b : EV := mkEV None 0 30%Q 1 10.

Definition clash_city : @EVCity mock :=
  fresh (config_of 20 1 1) one_transformer [idle 0 0 1 [None]]
        (Some [ev_a; ev_b]).

(** An engine in the middle of an episode: one call of [step] has been
    made, in which [ev_a] arrived at station 0. *)
Definition parked_city : @EVCity mock :=
  {| config := config_of 20 1 1;
     empty_ports_at_end_of_simulation := true; sim_date := 5;
     transformers := one_transformer;
     charging_stations := [idle 0 0 1 [Some ev_a]];
     ev_profiles := None;
     current_step := 1; total_evs_spawned := 1; current_ev_departed := 0;
     current_ev_arrived := 1; current_evs_parked := 1; done := false;
     EVs := [ev_a]; spawn_rate := Some 0.8%Q |}.

(** An action vector with no entry, for an engine with one port. *)
Definition no_actions : Input := mkInput [] (draws 0.5%Q 20%Q 8).

(** [two_stations] with transformer 0 rated at 2, below the power 3 that
    station 0 puts on it. *)
Definition hot_city : @EVCity mock :=
  set_transformers two_stations
    [mkTransformer 0 [0] 2%Q 0%Q; mkTransformer 1 [1] 100%Q 0%Q].

(** The same in random-game mode. *)
Definition hot_random_game : @EVCity mock :=
  {| config :=
       {| generate_rnd_game := true; save_replay := true;
          simulation_length := 20; cs := 2; score_threshold := 1%Q;
          timescale := 5; simulate_grid := false;
          charge_prices := prices 2 20 (-0.05)%Q;
          discharge_prices := prices 2 20 0.1%Q; number_of_ports := 2 |};
     empty_ports_at_end_of_simulation := true; sim_date := 0;
     transformers := transformers hot_city;
     charging_stations := charging_stations hot_city;
     ev_profiles := Some [];
     current_step := 0; total_evs_spawned := 0; current_ev_departed := 0;
     current_ev_arrived := 0; current_evs_parked := 0; done := false;
     EVs := []; spawn_rate := None |}.

(** One station that reports a satisfaction score of one half, below the
    threshold 1. *)
Definition unhappy_city : @EVCity mock :=
  fresh (config_of 20 1 1) one_transformer [busy 0 0 0%Q [0.5%Q] 0%Q] (Some []).

(** Ten steps long, one station with one port, an empty EV profile. *)
Definition ten_step_city : @EVCity mock :=
  fresh (config_of 10 1 1) one_transformer [idle 0 0 1 [None]] (Some []).

(** [two_stations] with the grid simulation switched on. *)
Definition grid_city : @EVCity mock :=
  {| config :=
       {| generate_rnd_game := false; save_replay := true;
          simulation_length := 20; cs := 2; score_threshold := 1%Q;
          timescale := 5; simulate_grid := true;
          charge_prices := prices 2 20 (-0.05)%Q;
          discharge_prices := prices 2 20 0.1%Q; number_of_ports := 2 |};
     empty_ports_at_end_of_simulation := true; sim_date := 0;
     transformers := transformers two_stations;
     charging_stations := charging_stations two_stations;
     ev_profiles := Some [];
     current_step := 0; total_evs_spawned := 0; current_ev_departed := 0;
     current_ev_arrived := 0; current_evs_parked := 0; done := false;
     EVs := []; spawn_rate := None |}.

(** A profile with an EV that arrived in the past, one due at step 1, one
    arriving at step 3 and, behind it, another one marked for step 1. *)
Definition ev_past : EV := mkEV None 0 10%Q 0 5.
Definition ev_late : EV := mkEV None 0 40%Q 3 12.

Definition scan_city : @EVCity mock :=
  fresh (config_of 20 1 1) one_transformer [idle 0 0 1 [None]]
        (Some [ev_past; ev_a; ev_late; ev_b]).

(** An engine whose profile of one EV has been spawned, [reset] in mind. *)
Definition spent_city : @EVCity mock :=
  {| config := config_of 20 1 1;
     empty_ports_at_end_of_simulation := true; sim_date := 25;
     transformers := one_transformer;
     charging_stations := [idle 0 0 1 [Some ev_a]];
     ev_profiles := Some [ev_a];
     current_step := 5; total_evs_spawned := 1; current_ev_departed := 0;
     current_ev_arrived := 0; current_evs_parked := 1; done := false;
     EVs := [ev_a]; spawn_rate := None |}.

(** The constructor call [Transformer(id=i, cs_ids=ids)], with a rating
    of 100 and no load. *)
Definition transformer_of (i : Z) (ids : list Z) : Transformer :=
  mkTransformer i ids 100%Q 0%Q.

(** An engine built from a replay with [simulation_length=0]: the prices
    and the EV profile are the replay's (twenty steps of prices, no EV),
    while the simulation length stays the one given to [__init__], which
    does not take the replay's. *)
Definition zero_length_replay_city : @EVCity mock :=
  {| config :=
       {| generate_rnd_game := false; save_replay := true;
          simulation_length := 0; cs := 1; score_threshold := 1%Q;
          timescale := 5; simulate_grid := false;
          charge_prices := prices 1 20 (-0.05)%Q;
          discharge_prices := prices 1 20 0.1%Q; number_of_ports := 1 |};
     empty_ports_at_end_of_simulation := true; sim_date := 0;
     transformers := one_transformer;
     charging_stations := [idle 0 0 1 [None]];
     ev_profiles := Some [];
     current_step := 0; total_evs_spawned := 0; current_ev_departed := 0;
     current_ev_arrived := 0; current_evs_parked := 0; done := false;
     EVs := []; spawn_rate := None |}.

(** The engine of [EVCity(cs=1, simulation_length=0)]: no replay, random
    spawning, and price matrices of one row and no column, as
    [_load_electricity_prices] draws them with [size=(cs,
    simulation_length)]. *)
Definition zero_length_city : @EVCity mock :=
  fresh (config_of 0 1 1) one_transformer [idle 0 0 1 [None]] None.

End Ex.

(** ** Construction

    The loaders [__init__] calls. A replay is the pickled [EvCityReplay]
    object; of its attributes the loaders read the transformers, the EVs
    and the two price matrices. *)

Record Replay : Type := mkReplay {
  replay_transformers : list Transformer;
  replay_EVs : list EV;
  replay_charge_prices : list (list Q);
  replay_discharge_prices : list (list Q)
}.

(** [np.where(cs_transformers == i)[0]], the positions being counted from
    [from]: the positions that hold [i], in ascending order. *)
Fixpoint where_equal (i : Z) (from : nat) (cs_transformers : list Z) : list Z :=
  match cs_transformers with
  | [] => []
  | t :: rest =>
      if t =? i then Z.of_nat from :: where_equal i (S from) rest
      else where_equal i (S from) rest
  end.

(** [range(n)] *)
Definition range (n : Z) : list Z := map Z.of_nat (seq 0 (Z.to_nat n)).

(** [_load_transformers], [Transformer_new i ids] standing for the
    constructor call [Transformer(id=i, cs_ids=ids)]. *)
Definition _load_transformers (Transformer_new : Z -> list Z -> Transformer)
    (replay : option Replay) (number_of_transformers : Z)
    (cs_transformers : list Z) : list Transformer :=
  match replay with
  | None =>
      map (fun i => Transformer_new i (where_equal i 0 cs_transformers))
          (range number_of_transformers)
  | Some r => replay_transformers r
  end.

(** [_load_ev_profiles] *)
Definition _load_ev_profiles (replay : option Replay)
    (load_ev_from_replay : bool) : option (list EV) :=
  match replay with
  | None => None
  | Some r => if load_ev_from_replay then Some (replay_EVs r) else None
  end.

(** [_load_electricity_prices], [normal_charge] and [normal_discharge]
    being the matrices [np.random.normal] gives. *)
Definition _load_electricity_prices (replay : option Replay)
    (load_prices_from_replay : bool)
    (normal_charge normal_discharge : list (list Q))
    : list (list Q) * list (list Q) :=
  let generated :=
    (map (map (fun x => (-1 * Qabs x)%Q)) normal_charge,
     map (map Qabs) normal_discharge) in
  match replay with
  | None => generated
  | Some r =>
      if negb load_prices_from_replay then generated
      else (replay_charge_prices r, replay_discharge_prices r)
  end.

(** A matrix of the given shape. *)
Definition shaped {A} (rows cols : nat) (m : list (list A)) : Prop :=
  length m = rows /\ Forall (fun row => length row = cols) m.

(** ** More vocabulary *)

Section MoreVocabulary.

Context {C : Collaborators}.

(** The action slices handed to the stations, in order. *)
Fixpoint slices (tr : list Event) : list (list Q) :=
  match tr with
  | [] => []
  | CsStep _ _ acts _ _ _ _ :: tr => acts :: slices tr
  | _ :: tr => slices tr
  end.

(** The EVs passed to [spawn_ev], in order. *)
Definition spawned_evs (tr : list Event) : list EV :=
  map (fun x : nat * EV_Charger * EV => snd x) (spawns tr).

(** The EVs of a profile that one scan at step [t] spawns: those arriving
    at [t + 1], up to the first one that arrives later. *)
Fixpoint due (t : Z) (profile : list EV) : list EV :=
  match profile with
  | [] => []
  | ev :: rest =>
      if time_of_arrival ev =? t + 1 then ev :: due t rest
      else if time_of_arrival ev >? t + 1 then []
      else due t rest
  end.


(** The bookkeeping of arrivals and departures follows the calls made so
    far in this step; [s0] is the engine when [step] was called. *)
Definition accounted (s0 : EVCity) (L : Loop) : Prop :=
  current_ev_arrived (self L) = Py.len (spawns (trace L))
  /\ current_ev_departed (self L) = Py.len (scores (trace L))
  /\ total_evs_spawned (self L)
     = total_evs_spawned s0 + Py.len (spawns (trace L))
  /\ EVs (self L)
     = EVs s0 ++ (if save_replay (config s0) then spawned_evs (trace L)
                  else [])
  /\ config (self L) = config s0
  /\ current_evs_parked (self L) = current_evs_parked s0
  /\ sim_date (self L) = sim_date s0
  /\ current_step (self L) = current_step s0.

(** Every [cs.step] call so far was made on the station at its position in
    the station list as [step] found it, with the prices of that station at
    the step counter. *)
Definition priced (s0 : EVCity) (tr : list Event) : Prop :=
  Forall (fun e =>
            match e with
            | CsStep pos before _ cp dp _ _ =>
                charging_stations s0 !! pos = Some before
                /\ Py.index2 (charge_prices (config s0)) (id before)
                             (current_step s0) = Some cp
                /\ Py.index2 (discharge_prices (config s0)) (id before)
                             (current_step s0) = Some dp
            | SpawnEv _ _ _ _ _ => True
            end) tr.

(** The stations still to do are the tail of the station list of [s0],
    and the loop has not touched what the price lookup reads. *)
Definition in_order (s0 : EVCity) (pos : nat) (todo : list EV_Charger)
    (L : Loop) : Prop :=
  todo = drop pos (charging_stations s0)
  /\ current_step (self L) = current_step s0
  /\ config (self L) = config s0.

(** The slices handed out so far are the actions before the port counter,
    cut at the port counts of the stations stepped. *)
Definition partitioned (inp : Input) (total : Z) (pos : nat)
    (todo : list EV_Charger) (L : Loop) : Prop :=
  0 <= port_counter L
  /\ port_counter L + fold_right Z.add 0 (map n_ports todo) = total
  /\ concat (slices (trace L)) = take (Z.to_nat (port_counter L)) (actions inp)
  /\ Forall2 (fun c acts => Py.len acts = n_ports c)
             (stepped (trace L)) (slices (trace L)).

(** The random-mode test that lets an EV be spawned at position [pos]:
    the end-of-simulation policy allows it, the station as its [step] left
    it ([c1]) has fewer EVs connected than the ports of the station as
    [step] found it ([c0]), and the draw is below the spawn rate. *)
Definition spawn_test (inp : Input) (s0 : EVCity) (pos : nat)
    (c0 c1 : EV_Charger) : bool :=
  negb (empty_ports_at_end_of_simulation s0
        && (current_step s0 + 1 + max_stay_of_ev
            >=? simulation_length (config s0)))
  && (n_ports c0 >? n_evs_connected c1)
  && Qltb (rand (np_random inp pos)) 0.8%Q.

(** Whether random mode spawns an EV at position [pos], [after] being the
    stations as their [step] left them. *)
Definition spawn_decision (inp : Input) (s0 : EVCity)
    (after : list EV_Charger) (pos : nat) : bool :=
  match charging_stations s0 !! pos, after !! pos with
  | Some c0, Some c1 => spawn_test inp s0 pos c0 c1
  | _, _ => false
  end.

(** The spawning calls so far are those the test decides, for the
    stations before position [pos]. *)
Definition decided (inp : Input) (s0 : EVCity) (pos : nat)
    (todo : list EV_Charger) (L : Loop) : Prop :=
  random_mode s0 pos todo L
  /\ length (reports (trace L)) = pos
  /\ map spawn_position (spawns (trace L))
     = List.filter (spawn_decision inp s0 (reports (trace L))) (seq 0 pos).

(** An event of the profile loop: a call of [spawn_ev]. *)
Definition is_spawn (e : Event) : Prop :=
  match e with
  | SpawnEv _ _ _ _ _ => True
  | CsStep _ _ _ _ _ _ _ => False
  end.

End MoreVocabulary.

(** * Properties *)

Section LoopRules.

Context {C : Collaborators}.
Variable inp : Input.

(** An invariant of the station loop holds when the loop ends normally. *)
Lemma station_loop_completes (P : nat -> list EV_Charger -> Loop -> Prop) :
  (forall pos c rest L L',
      P pos (c :: rest) L -> station_body inp pos c L = (L', None) ->
      P (S pos) rest L') ->
  forall todo pos L L',
    P pos todo L -> station_loop inp pos todo L = (L', None) ->
    P (pos + length todo)%nat [] L'.
Proof.
  intros Hbody todo.
  induction todo as [|c rest IH]; intros pos L L' HP Hloop; simpl in Hloop.
  - inversion Hloop; subst. simpl. now rewrite Nat.add_0_r.
  - destruct (station_body inp pos c L) as [L1 [e|]] eqn:Hb; [discriminate|].
    simpl. rewrite <- Nat.add_succ_comm.
    eapply IH; [|exact Hloop]. eapply Hbody; eauto.
Qed.

(** When the loop ends in an exception, one iteration raised it, from a
    state in which the invariant held. *)
Lemma station_loop_raises (P : nat -> list EV_Charger -> Loop -> Prop) :
  (forall pos c rest L L',
      P pos (c :: rest) L -> station_body inp pos c L = (L', None) ->
      P (S pos) rest L') ->
  forall todo pos L L' e,
    P pos todo L -> station_loop inp pos todo L = (L', Some e) ->
    exists pos' c rest L0,
      P pos' (c :: rest) L0 /\ station_body inp pos' c L0 = (L', Some e).
Proof.
  intros Hbody todo.
  induction todo as [|c rest IH]; intros pos L L' e HP Hloop; simpl in Hloop.
  - discriminate.
  - destruct (station_body inp pos c L) as [L1 [e1|]] eqn:Hb.
    + inversion Hloop; subst. exists pos, c, rest, L. auto.
    + eapply IH; [|exact Hloop]. eapply Hbody; eauto.
Qed.

End LoopRules.

(** Case analysis of one iteration of the station loop. *)
Ltac body_cases H :=
  unfold station_body, spawn_random in H; cbn beta iota zeta in H;
  repeat match type of H with
         | context [match ?x with _ => _ end] =>
             lazymatch x with
             | context [match _ with _ => _ end] => fail
             | _ => destruct x eqn:?
             end; cbn [self total_costs user_satisfaction_list port_counter
                       trace with_self log] in H
         end;
  match type of H with
  | _ = (?L', ?r) => inversion H; clear H; try subst L'; try subst r
  end.

Section Frame.

Context {C : Collaborators}.
Variable inp : Input.

Lemma same_frame_refl s : same_frame s s.
Proof. unfold same_frame; intuition. Qed.

Lemma same_frame_trans s1 s2 s3 :
  same_frame s1 s2 -> same_frame s2 s3 -> same_frame s1 s3.
Proof. unfold same_frame; intuition congruence. Qed.

Lemma station_body_frame pos c L L' r :
  station_body inp pos c L = (L', r) -> same_frame (self L) (self L').
Proof.
  intros H. body_cases H; unfold same_frame; cbn;
    rewrite ?length_alter, ?length_insert; intuition congruence.
Qed.

End Frame.

Section FrameOfStep.

Context {C : Collaborators}.
Variable inp : Input.

Lemma station_loop_frame todo pos L L' r :
  station_loop inp pos todo L = (L', r) -> same_frame (self L) (self L').
Proof.
  revert pos L. induction todo as [|c rest IH]; intros pos L H; simpl in H.
  - inversion H; subst. apply same_frame_refl.
  - destruct (station_body inp pos c L) as [L1 [e|]] eqn:Hb.
    + inversion H; subst. eapply station_body_frame; eauto.
    + eapply same_frame_trans; [eapply station_body_frame; eauto|eauto].
Qed.

Lemma station_loop_ev_profiles todo pos L L' r :
  station_loop inp pos todo L = (L', r) ->
  ev_profiles (self L') = ev_profiles (self L).
Proof.
  revert pos L. induction todo as [|c rest IH]; intros pos L H; simpl in H.
  - inversion H; subst. reflexivity.
  - destruct (station_body inp pos c L) as [L1 [e|]] eqn:Hb.
    + inversion H; subst. body_cases Hb; reflexivity.
    + rewrite (IH _ _ H). body_cases Hb; reflexivity.
Qed.

Lemma profile_loop_frame todo i L L' r :
  profile_loop i todo L = (L', r) -> same_frame (self L) (self L').
Proof.
  revert i L. induction todo as [|ev rest IH]; intros i L H; simpl in H.
  - inversion H; subst. apply same_frame_refl.
  - destruct (time_of_arrival ev =? current_step (self L) + 1).
    + set (s1 := set_ev_profiles (self L) _) in H.
      assert (F1 : same_frame (self L) s1).
      { unfold same_frame, s1; cbn.
        destruct (ev_profiles (self L)); cbn; intuition congruence. }
      destruct (Py.pos _ _) as [k|]; [|inversion H; subst; exact F1].
      destruct (_ !! k) as [c|]; [|inversion H; subst; exact F1].
      destruct (spawn_ev c (ev_reset ev)) as [c' [e|]].
      * inversion H; subst. cbn.
        eapply same_frame_trans; [exact F1|].
        unfold same_frame; cbn; rewrite ?length_insert; intuition.
      * apply IH in H. eapply same_frame_trans; [exact F1|].
        eapply same_frame_trans; [|exact H].
        unfold same_frame; cbn.
        destruct (save_replay _); cbn; rewrite ?length_insert; intuition.
    + destruct (time_of_arrival ev >? current_step (self L) + 1).
      * inversion H; subst. apply same_frame_refl.
      * eauto.
Qed.

Lemma spawn_profiles_frame L L' r :
  spawn_profiles L = (L', r) -> same_frame (self L) (self L').
Proof.
  unfold spawn_profiles. destruct (ev_profiles (self L)).
  - apply profile_loop_frame.
  - intros H; inversion H; subst. apply same_frame_refl.
Qed.

Lemma begin_frame s : same_frame s (self (begin s)).
Proof. unfold same_frame; cbn. rewrite length_map. intuition. Qed.

(** The three ways a call of [step] on a running engine can go. *)
Lemma step_running s o s' tr :
  done s = false -> step s inp = (o, s', tr) ->
  (exists L e, station_loop inp 0 (charging_stations s) (begin s) = (L, Some e)
               /\ o = Raised e /\ s' = self L /\ tr = trace L)
  \/ (exists L1 L e,
         station_loop inp 0 (charging_stations s) (begin s) = (L1, None)
         /\ spawn_profiles L1 = (L, Some e)
         /\ o = Raised e /\ s' = self L /\ tr = trace L)
  \/ (exists L1 L,
         station_loop inp 0 (charging_stations s) (begin s) = (L1, None)
         /\ spawn_profiles L1 = (L, None)
         /\ (o, s') = finish L /\ tr = trace L).
Proof.
  intros Hd H. unfold step in H. rewrite Hd in H.
  change (charging_stations (self (begin s))) with (charging_stations s) in H.
  destruct (station_loop _ _ _ _) as [L1 [e|]] eqn:Hl.
  - left. inversion H; subst. eauto 10.
  - destruct (spawn_profiles L1) as [L [e|]] eqn:Hp.
    + right; left. inversion H; subst. eauto 10.
    + right; right. inversion H; subst. exists L1, L. intuition.
Qed.

End FrameOfStep.

Section Traces.

Context {C : Collaborators}.

Lemma scores_app (a b : list Event) : scores (a ++ b) = scores a ++ scores b.
Proof.
  induction a as [|e a IH]; simpl; [reflexivity|].
  destruct e as [? ? ? ? ? ? [?|[? ?]]|]; simpl; rewrite IH;
    auto using app_assoc.
Qed.

Lemma costs_app (a b : list Event) : costs (a ++ b) = costs a ++ costs b.
Proof.
  induction a as [|e a IH]; simpl; [reflexivity|].
  destruct e as [? ? ? ? ? ? [?|[? ?]]|]; simpl; rewrite IH; auto.
Qed.

Lemma reports_app (a b : list Event) : reports (a ++ b) = reports a ++ reports b.
Proof.
  induction a as [|e a IH]; simpl; [reflexivity|].
  destruct e as [? ? ? ? ? ? [?|[? ?]]|]; simpl; rewrite IH; auto.
Qed.

Lemma spawns_app (a b : list Event) : spawns (a ++ b) = spawns a ++ spawns b.
Proof.
  induction a as [|e a IH]; simpl; [reflexivity|].
  destruct e; simpl; rewrite IH; auto.
Qed.

Lemma Qsum_snoc (l : list Q) (x : Q) : Qsum (l ++ [x]) = (Qsum l + x)%Q.
Proof. unfold Qsum. now rewrite fold_left_app. Qed.

Lemma stepped_app (a b : list Event) : stepped (a ++ b) = stepped a ++ stepped b.
Proof.
  induction a as [|e a IH]; simpl; [reflexivity|].
  destruct e; simpl; rewrite IH; auto.
Qed.

Lemma profile_loop_trace todo i L L' r :
  profile_loop i todo L = (L', r) ->
  station_part (trace L') = station_part (trace L)
  /\ total_costs L' = total_costs L
  /\ user_satisfaction_list L' = user_satisfaction_list L.
Proof.
  revert i L. induction todo as [|ev rest IH]; intros i L H; simpl in H.
  - inversion H; subst. auto.
  - destruct (time_of_arrival ev =? current_step (self L) + 1).
    + destruct (Py.pos _ _) as [k|]; [|inversion H; subst; auto].
      destruct (_ !! k) as [c|]; [|inversion H; subst; auto].
      destruct (spawn_ev c (ev_reset ev)) as [c' [e|]].
      * inversion H; subst. cbn. unfold station_part.
        rewrite scores_app, costs_app, reports_app, stepped_app. cbn.
        now rewrite !app_nil_r.
      * apply IH in H. cbn in H. unfold station_part in *.
        rewrite scores_app, costs_app, reports_app, stepped_app in H. cbn in H.
        now rewrite !app_nil_r in H.
    + destruct (time_of_arrival ev >? current_step (self L) + 1).
      * inversion H; subst. auto.
      * eauto.
Qed.

Lemma spawn_profiles_trace L L' r :
  spawn_profiles L = (L', r) ->
  station_part (trace L') = station_part (trace L)
  /\ total_costs L' = total_costs L
  /\ user_satisfaction_list L' = user_satisfaction_list L.
Proof.
  unfold spawn_profiles. destruct (ev_profiles (self L)).
  - apply profile_loop_trace.
  - intros H; inversion H; subst. auto.
Qed.

Lemma station_body_locals inp pos c L L' :
  locals_follow_trace L -> station_body inp pos c L = (L', None) ->
  locals_follow_trace L'.
Proof.
  unfold locals_follow_trace. intros [Hu Ht] H.
  body_cases H;
    cbn [user_satisfaction_list total_costs trace log with_self self];
    rewrite ?scores_app, ?costs_app; cbn [scores costs app];
    rewrite ?app_nil_r, ?Qsum_snoc, Hu, Ht; auto.
Qed.

Lemma station_loop_locals inp todo pos L L' :
  locals_follow_trace L -> station_loop inp pos todo L = (L', None) ->
  locals_follow_trace L'.
Proof.
  apply (station_loop_completes inp (fun _ _ L => locals_follow_trace L)).
  intros. eapply station_body_locals; eauto.
Qed.

(** A call of [step] that returns went through both loops and [finish]. *)
Lemma step_returned inp s obs reward d s' tr :
  step s inp = (Returned obs reward d, s', tr) ->
  done s = false /\
  exists L, finish L = (Returned obs reward d, s')
            /\ tr = trace L
            /\ same_frame s (self L)
            /\ locals_follow_trace L.
Proof.
  intros H.
  destruct (done s) eqn:Hd.
  { unfold step in H. rewrite Hd in H. discriminate. }
  split; [reflexivity|].
  destruct (step_running inp s _ _ _ Hd H)
    as [(L & e & _ & Ho & _)|[(L1 & L & e & _ & _ & Ho & _)
                              |(L1 & L & Hl & Hp & Hf & Ht)]];
    try discriminate.
  exists L. split; [|split; [|split]]; auto.
  - eapply same_frame_trans; [apply begin_frame|].
    eapply same_frame_trans; [eapply station_loop_frame; eauto|].
    eapply spawn_profiles_frame; eauto.
  - apply spawn_profiles_trace in Hp. destruct Hp as (Hs & Hc & Hu).
    apply station_loop_locals in Hl; [|split; reflexivity].
    unfold station_part in Hs. inversion Hs as [[H1 H2 H3 H4]].
    unfold locals_follow_trace in *. rewrite Hc, Hu, H1, H2. exact Hl.
Qed.

End Traces.

Section StepReturns.

Context {C : Collaborators}.

Lemma finish_returned L obs reward d s' :
  finish L = (Returned obs reward d, s') ->
  simulate_grid (config (self L)) = false
  /\ reward = total_costs L
  /\ d = episode_is_done (advance (self L)) (user_satisfaction_list L)
  /\ s' = (if d then set_done (advance (self L)) true else advance (self L))
  /\ obs = _get_observation s'.
Proof.
  unfold finish. cbn [advance _step_date config set_current_evs_parked
                      set_sim_date set_current_step].
  destruct (simulate_grid (config (self L))); [discriminate|].
  destruct (episode_is_done _ _) eqn:Hd; intros H; inversion H; subst;
    rewrite ?Hd; auto.
Qed.

(** A returned call: counter, flag and configuration afterwards. *)
Lemma step_returned_state inp s obs reward d s' tr :
  step s inp = (Returned obs reward d, s', tr) ->
  config s' = config s /\ current_step s' = current_step s + 1
  /\ done s' = d /\ done s = false.
Proof.
  intros H. apply step_returned in H.
  destruct H as (Hd & L & Hf & _ & (Hc & Hs & Hdn & _) & _).
  apply finish_returned in Hf. destruct Hf as (_ & _ & _ & -> & _).
  destruct d; cbn; rewrite ?Hc, ?Hs, ?Hdn; auto.
Qed.

End StepReturns.

Section Coverage.

Context {C : Collaborators}.
Variable inp : Input.

Lemma station_body_faithful pos c L L' r :
  Forall faithful (trace L) -> station_body inp pos c L = (L', r) ->
  Forall faithful (trace L').
Proof.
  intros HF H.
  body_cases H; cbn [trace log with_self]; auto;
    repeat (apply Forall_app; split; auto);
    repeat constructor; cbn; auto.
Qed.

Lemma station_loop_faithful todo pos L L' r :
  Forall faithful (trace L) -> station_loop inp pos todo L = (L', r) ->
  Forall faithful (trace L').
Proof.
  revert pos L. induction todo as [|c rest IH]; intros pos L HF H; simpl in H.
  - inversion H; subst; auto.
  - destruct (station_body inp pos c L) as [L1 [e|]] eqn:Hb.
    + inversion H; subst. eapply station_body_faithful; eauto.
    + eapply IH; [|exact H]. eapply station_body_faithful; eauto.
Qed.

Lemma profile_loop_faithful todo i L L' r :
  Forall faithful (trace L) -> profile_loop i todo L = (L', r) ->
  Forall faithful (trace L').
Proof.
  revert i L. induction todo as [|ev rest IH]; intros i L HF H; simpl in H.
  - inversion H; subst; auto.
  - destruct (time_of_arrival ev =? current_step (self L) + 1).
    + destruct (Py.pos _ _) as [k|]; [|inversion H; subst; auto].
      destruct (_ !! k) as [c|]; [|inversion H; subst; auto].
      destruct (spawn_ev c (ev_reset ev)) as [c' r'] eqn:Hs.
      assert (HF' : Forall faithful (trace L ++ [SpawnEv k c (ev_reset ev) c' r'])).
      { apply Forall_app; split; auto. }
      destruct r' as [e|].
      * inversion H; subst. exact HF'.
      * eapply IH; [|exact H]. exact HF'.
    + destruct (time_of_arrival ev >? current_step (self L) + 1).
      * inversion H; subst; auto.
      * eauto.
Qed.

Lemma spawn_profiles_faithful L L' r :
  Forall faithful (trace L) -> spawn_profiles L = (L', r) ->
  Forall faithful (trace L').
Proof.
  unfold spawn_profiles. destruct (ev_profiles (self L)).
  - apply profile_loop_faithful.
  - intros HF H; inversion H; subst; auto.
Qed.

(** Every event of a trace of [step] records its call truly. *)
Lemma step_faithful s o s' tr :
  step s inp = (o, s', tr) -> Forall faithful tr.
Proof.
  intros H. destruct (done s) eqn:Hd.
  { unfold step in H. rewrite Hd in H. inversion H; subst. constructor. }
  destruct (step_running inp s _ _ _ Hd H)
    as [(L & e & Hl & _ & _ & ->)|[(L1 & L & e & Hl & Hp & _ & _ & ->)
                                   |(L1 & L & Hl & Hp & _ & ->)]].
  - eapply station_loop_faithful; [|exact Hl]. constructor.
  - eapply spawn_profiles_faithful; [|exact Hp].
    eapply station_loop_faithful; [|exact Hl]. constructor.
  - eapply spawn_profiles_faithful; [|exact Hp].
    eapply station_loop_faithful; [|exact Hl]. constructor.
Qed.

Lemma station_body_covers stations pos c rest L L' :
  covers stations pos (c :: rest) L -> station_body inp pos c L = (L', None) ->
  covers stations (S pos) rest L'.
Proof.
  unfold covers. intros HC H. revert HC.
  body_cases H; intros (H1 & H2 & H3 & H4); cbn [trace log with_self];
    rewrite ?stepped_app, ?costs_app, ?reports_app; cbn [stepped costs reports];
    rewrite ?app_nil_r, ?length_app, <- ?app_assoc; cbn [length app];
    rewrite H1, H2, H3, H4; repeat split; auto; lia.
Qed.

(** A call of [step] that returns has stepped every station once, in the
    order of the station list, and each call returned normally. *)
Lemma step_covers s obs reward d s' tr :
  step s inp = (Returned obs reward d, s', tr) ->
  stepped tr = charging_stations s
  /\ length (costs tr) = length (charging_stations s)
  /\ length (reports tr) = length (charging_stations s).
Proof.
  intros H. destruct (done s) eqn:Hd.
  { unfold step in H. rewrite Hd in H. discriminate. }
  destruct (step_running inp s _ _ _ Hd H)
    as [(L & e & _ & Ho & _)|[(L1 & L & e & _ & _ & Ho & _)
                              |(L1 & L & Hl & Hp & _ & ->)]];
    try discriminate.
  apply (station_loop_completes inp (covers (charging_stations s))
           (station_body_covers (charging_stations s))) in Hl.
  - destruct Hl as (H1 & H2 & H3 & H4).
    destruct (spawn_profiles_trace _ _ _ Hp) as (Hs & _).
    inversion Hs as [[E1 E2 E3 E4]].
    rewrite E2, E3, E4. rewrite app_nil_r in H1.
    rewrite H3, H4, <- H2, H1. auto.
  - unfold covers; cbn. auto.
Qed.

End Coverage.

(** * The step protocol *)

Section StepProtocol.

Context {C : Collaborators}.

(** C6: in the DONE state (the [done] flag set) every call of [step] fails
    with the assertion error that says the episode is done, before it
    changes anything: the engine is returned as it was and no collaborator
    was called. [step] only goes on when the engine is RUNNING. *)
Theorem step_refused_when_done (s : EVCity) (inp : Input) :
  done s = true ->
  step s inp = (Raised (Engine AssertionError_episode_done), s, [])
  /\ message AssertionError_episode_done
     = "Episode is done, please reset the environment"%string.
Proof.
  intros Hd. unfold step. rewrite Hd. split; reflexivity.
Qed.

(** C5: on a step that returns (a non-grid step), the reward is the total of
    the costs the stations returned in that step, one per station, summed in
    station order from zero; [_calculate_reward] gives back its first
    argument whatever the satisfaction list is. *)
Theorem reward_is_total_cost (s : EVCity) (inp : Input) obs reward d s' tr :
  step s inp = (Returned obs reward d, s', tr) ->
  reward = Qsum (costs tr)
  /\ length (costs tr) = length (charging_stations s)
  /\ simulate_grid (config s) = false
  /\ (forall total_costs user_satisfaction_list,
         _calculate_reward total_costs user_satisfaction_list = total_costs).
Proof.
  intros H.
  destruct (step_covers inp _ _ _ _ _ _ H) as (_ & Hlen & _).
  apply step_returned in H.
  destruct H as (_ & L & Hf & -> & (Hc & _) & (_ & Ht)).
  apply finish_returned in Hf. destruct Hf as (Hg & -> & _).
  rewrite <- Hc. auto.
Qed.

End StepProtocol.

Lemma step_refused_when_done_witness :
  done Ex.finished_city = true
  /\ step Ex.finished_city Ex.idle_input
     = (Raised (Engine AssertionError_episode_done), Ex.finished_city, []).
Proof.
  split; [reflexivity|].
  exact (proj1 (step_refused_when_done Ex.finished_city Ex.idle_input eq_refl)).
Defined.

Lemma reward_is_total_cost_witness :
  exists obs s' tr,
    step Ex.two_stations Ex.two_actions = (Returned obs 7%Q false, s', tr)
    /\ 7%Q = Qsum (costs tr).
Proof.
  eexists _, _, _.
  assert (H : step Ex.two_stations Ex.two_actions = (Returned _ _ _, _, _))
    by (vm_compute; reflexivity).
  split; [exact H|exact (proj1 (reward_is_total_cost _ _ _ _ _ _ _ H))].
Defined.

Section Termination.

Context {C : Collaborators}.

Lemma Qltb_lt (x y : Q) : Qltb x y = true <-> (x < y)%Q.
Proof.
  unfold Qltb. rewrite Qlt_alt. destruct (x ?= y)%Q; split; congruence.
Qed.

(** The flag a returned call gives is the termination test on the counter
    after the increment, the scores returned in this step and the
    transformers as the step leaves them. *)
Lemma done_flag_eq (s : EVCity) (inp : Input) obs reward d s' tr :
  step s inp = (Returned obs reward d, s', tr) ->
  d = (current_step s + 1 >=? simulation_length (config s))
      || existsb (fun score => Qltb score (score_threshold (config s)))
                 (scores tr)
      || (existsb TransformerM.is_overloaded (transformers s')
          && negb (generate_rnd_game (config s))).
Proof.
  intros H. apply step_returned in H.
  destruct H as (_ & L & Hf & -> & (Hc & Hs & _) & (Hu & _)).
  apply finish_returned in Hf. destruct Hf as (_ & _ & Hd & -> & _).
  rewrite Hd at 1. unfold episode_is_done.
  assert (Ht : forall b : bool, transformers (if b then set_done (advance (self L)) true
                                       else advance (self L))
                         = transformers (advance (self L)))
    by (intros []; reflexivity).
  rewrite Ht. cbn. now rewrite Hc, Hs, Hu.
Qed.

(** Calls that all return, made one after the other: their number is
    bounded by the steps left to the simulation length (and one call can
    always be made on a running engine). *)
Lemma run_length (inps : list Input) :
  forall (s : EVCity) outs s',
    run s inps = (outs, s') -> forallb returned outs = true ->
    Z.of_nat (length inps)
    <= Z.max 1 (simulation_length (config s) - current_step s).
Proof.
  induction inps as [|inp rest IH]; intros s outs s' Hrun Hall.
  - simpl. lia.
  - simpl in Hrun.
    destruct (step s inp) as [[o s1] tr] eqn:Hstep.
    destruct (run s1 rest) as [os s2] eqn:Hrest.
    inversion Hrun; subst; clear Hrun.
    simpl in Hall. apply andb_true_iff in Hall. destruct Hall as [Ho Hos].
    destruct o as [obs reward d|]; [|discriminate].
    destruct (step_returned_state _ _ _ _ _ _ _ Hstep) as (Hc & Hs & Hd & _).
    specialize (IH _ _ _ Hrest Hos). rewrite Hc, Hs in IH.
    destruct rest as [|inp2 rest'].
    + simpl. lia.
    + simpl in Hrest.
      destruct (step s1 inp2) as [[o2 s3] tr2] eqn:Hstep2.
      destruct (run s3 rest') as [os2 s4].
      inversion Hrest; subst; clear Hrest.
      simpl in Hos. apply andb_true_iff in Hos. destruct Hos as [Ho2 _].
      destruct o2 as [obs2 reward2 d2|]; [|discriminate].
      destruct (step_returned_state _ _ _ _ _ _ _ Hstep2) as (_ & _ & _ & Hrunning).
      apply done_flag_eq in Hstep. rewrite Hrunning in Hstep.
      symmetry in Hstep. apply orb_false_iff in Hstep. destruct Hstep as [Hstep _].
      apply orb_false_iff in Hstep. destruct Hstep as [Hlen _].
      change (length (inp :: inp2 :: rest')) with (S (length (inp2 :: rest'))).
      lia.
Qed.

(** C1: a call of [step] on a running engine that returns gives [done = true]
    if and only if the step counter, after it was advanced, has reached the
    simulation length, or a satisfaction score returned by a station in this
    step is below the score threshold, or a transformer is overloaded while
    the random-game mode is off. The flag is stored in the engine and the
    counter moves by one, so an episode started at step 0 whose calls all
    return has at most [simulation_length] calls (one call, when the
    simulation length is below one). *)
Theorem done_flag_and_episode_length :
  (forall (s : EVCity) (inp : Input) obs reward d s' tr,
      step s inp = (Returned obs reward d, s', tr) ->
      (d = true <->
       simulation_length (config s) <= current_step s + 1
       \/ (exists score, In score (scores tr)
                         /\ (score < score_threshold (config s))%Q)
       \/ ((exists t, In t (transformers s')
                      /\ TransformerM.is_overloaded t = true)
           /\ generate_rnd_game (config s) = false))
      /\ done s = false /\ done s' = d
      /\ current_step s' = current_step s + 1)
  /\
  (forall (s : EVCity) (inps : list Input) outs s',
      current_step s = 0 -> run s inps = (outs, s') ->
      forallb returned outs = true ->
      Z.of_nat (length inps) <= Z.max 1 (simulation_length (config s))
      /\ (1 <= simulation_length (config s) ->
          Z.of_nat (length inps) <= simulation_length (config s))).
Proof.
  split.
  - intros s inp obs reward d s' tr H.
    destruct (step_returned_state _ _ _ _ _ _ _ H) as (_ & Hs & Hd & Hr).
    split; [|auto].
    rewrite (done_flag_eq _ _ _ _ _ _ _ H).
    rewrite !orb_true_iff, andb_true_iff, negb_true_iff, !existsb_exists.
    rewrite Z.geb_le.
    split.
    + intros [[Hl|(x & Hin & Hx)]|[(t & Hin & Ht) Hg]]; auto.
      * right; left. exists x. split; auto. now apply Qltb_lt.
      * right; right. split; eauto.
    + intros [Hl|[(x & Hin & Hx)|[(t & Hin & Ht) Hg]]]; auto.
      * left; right. exists x. split; auto. now apply Qltb_lt.
      * right. split; eauto.
  - intros s inps outs s' H0 Hrun Hall.
    pose proof (run_length inps s outs s' Hrun Hall) as Hlen.
    rewrite H0, Z.sub_0_r in Hlen. lia.
Qed.

End Termination.

Lemma done_flag_and_episode_length_witness :
  (exists obs reward s' tr,
      step Ex.replay_city Ex.idle_input = (Returned obs reward false, s', tr)
      /\ done s' = false /\ current_step s' = 1)
  /\ current_step Ex.replay_city = 0
  /\ forallb returned (fst (run Ex.replay_city [Ex.idle_input; Ex.idle_input]))
     = true
  /\ Z.of_nat (length [Ex.idle_input; Ex.idle_input])
     <= simulation_length (config Ex.replay_city).
Proof.
  split; [|split; [reflexivity|split; [vm_compute; reflexivity|]]].
  - eexists _, _, _, _.
    assert (H : step Ex.replay_city Ex.idle_input = (Returned _ _ _, _, _))
      by (vm_compute; reflexivity).
    split; [exact H|].
    exact (proj2 (proj2 (proj1 done_flag_and_episode_length _ _ _ _ _ _ _ H))).
  - refine (proj2 (proj2 done_flag_and_episode_length Ex.replay_city
                     [Ex.idle_input; Ex.idle_input] _ _ eq_refl _ _) _).
    + vm_compute; reflexivity.
    + vm_compute; reflexivity.
    + vm_compute; discriminate.
Defined.

Section TransformerLoad.

Context {C : Collaborators}.
Variable inp : Input.

Lemma load_nil n k : load n k [] = 0%Q.
Proof. reflexivity. Qed.

Lemma load_snoc n k l c :
  load n k (l ++ [c])
  = if feeds n k c then (load n k l + current_power_output c)%Q
    else load n k l.
Proof.
  unfold load. rewrite List.filter_app. cbn [List.filter].
  destruct (feeds n k c).
  - rewrite List.map_app. cbn [List.map]. now rewrite Qsum_snoc.
  - now rewrite app_nil_r.
Qed.

Lemma begin_aggregated s : aggregated (length (transformers s)) (begin s).
Proof.
  split; cbn.
  - apply length_map.
  - intros k t Hk.
    assert (Hin : In t (map (fun tr => TransformerM.set_current_power tr 0%Q)
                            (transformers s))).
    { apply list_elem_of_In. eapply list_elem_of_lookup_2. exact Hk. }
    apply in_map_iff in Hin. destruct Hin as (t0 & <- & _). reflexivity.
Qed.

Lemma station_body_aggregated n pos c L L' :
  aggregated n L -> station_body inp pos c L = (L', None) -> aggregated n L'.
Proof.
  unfold aggregated. intros [Hn HA] H.
  body_cases H; cbn [self trace log with_self] in *;
    repeat match goal with
           | |- context [transformers (if ?b then _ else _)] => destruct b
           end;
    cbn in *; rewrite ?length_alter; (split; [exact Hn|]);
    intros k t Hk;
    rewrite ?reports_app; cbn [reports]; rewrite ?app_nil_r, load_snoc;
    unfold feeds;
    match goal with
    | Hp : Py.pos _ _ = Some ?k0 |- _ =>
        rewrite Hn in Hp; rewrite Hp;
        destruct (Nat.eqb_spec k0 k) as [->|Hne];
        [rewrite list_lookup_alter_eq in Hk;
         destruct (transformers (self L) !! k) as [t0|] eqn:Hk0;
         [|discriminate];
         cbn in Hk; inversion Hk; subst; cbn;
         now rewrite (HA _ _ Hk0)
        |rewrite list_lookup_alter_ne in Hk by exact Hne; auto]
    end.
Qed.

End TransformerLoad.

Section TransformerLoadOfStep.

Context {C : Collaborators}.
Variable inp : Input.

Lemma profile_loop_transformers todo i L L' r :
  profile_loop i todo L = (L', r) ->
  transformers (self L') = transformers (self L).
Proof.
  revert i L. induction todo as [|ev rest IH]; intros i L H; simpl in H.
  - inversion H; subst; auto.
  - destruct (time_of_arrival ev =? current_step (self L) + 1).
    + destruct (Py.pos _ _) as [k|]; [|inversion H; subst; auto].
      destruct (_ !! k) as [c|]; [|inversion H; subst; auto].
      destruct (spawn_ev c (ev_reset ev)) as [c' [e|]].
      * inversion H; subst; auto.
      * apply IH in H. rewrite H. cbn. now destruct (save_replay _).
    + destruct (time_of_arrival ev >? current_step (self L) + 1).
      * inversion H; subst; auto.
      * eauto.
Qed.

Lemma spawn_profiles_transformers L L' r :
  spawn_profiles L = (L', r) ->
  transformers (self L') = transformers (self L).
Proof.
  unfold spawn_profiles. destruct (ev_profiles (self L)).
  - apply profile_loop_transformers.
  - intros H; inversion H; subst; auto.
Qed.

Lemma load_wiring n k (l1 l2 : list EV_Charger) :
  wiring <$> l1 = wiring <$> l2 -> load n k l1 = load n k l2.
Proof.
  intros H. unfold load. f_equal. revert l2 H.
  induction l1 as [|a l1 IH]; intros [|b l2] H; try discriminate; auto.
  cbn in H. inversion H as [[Hct Hp Hrest]].
  assert (Hf : feeds n k a = feeds n k b) by (unfold feeds; now rewrite Hct).
  cbn [List.filter]. rewrite Hf. specialize (IH _ Hrest).
  destruct (feeds n k b); auto.
  cbn [List.map]. now rewrite Hp, IH.
Qed.

Lemma insert_wired (l : list EV_Charger) (done_ : list EV_Charger) c c' rest :
  wiring <$> l = (wiring <$> done_) ++ (wiring <$> (c :: rest)) ->
  wiring <$> <[length done_ := c']> l
  = (wiring <$> (done_ ++ [c'])) ++ (wiring <$> rest).
Proof.
  intros H. rewrite list_fmap_insert, H.
  rewrite fmap_app, <- app_assoc. cbn.
  rewrite <- (length_fmap wiring done_) at 1.
  rewrite insert_app_r_alt by lia. now rewrite Nat.sub_diag.
Qed.

Lemma station_body_wired pos c rest L L' :
  spawn_keeps_wiring ->
  wired pos (c :: rest) L -> station_body inp pos c L = (L', None) ->
  wired (S pos) rest L'.
Proof.
  unfold wired. intros Hk HW H. revert HW.
  body_cases H; intros [HW <-]; cbn [self trace log with_self];
    rewrite ?reports_app; cbn [reports]; rewrite ?app_nil_r, length_app;
    (split; [|cbn; lia]);
    repeat match goal with
           | |- context [charging_stations (if ?b then _ else _)] => destruct b
           end;
    cbn; rewrite ?list_insert_insert_eq;
    try (eapply insert_wired; exact HW).
  all: match goal with
       | Hs : spawn_ev ?c1 ?ev = (?c2, _) |- _ =>
           rewrite (insert_wired _ _ _ c2 _ HW), !fmap_app; cbn;
           pose proof (Hk c1 ev) as Hw; rewrite Hs in Hw; cbn in Hw;
           now rewrite Hw
       end.
Qed.

Lemma profile_loop_wiring todo i L L' r :
  spawn_keeps_wiring ->
  profile_loop i todo L = (L', r) ->
  wiring <$> charging_stations (self L') = wiring <$> charging_stations (self L).
Proof.
  intros Hk. revert i L.
  induction todo as [|ev rest IH]; intros i L H; simpl in H.
  - inversion H; subst; auto.
  - destruct (time_of_arrival ev =? current_step (self L) + 1).
    + destruct (Py.pos _ _) as [k|]; [|inversion H; subst; auto].
      destruct (charging_stations (self L) !! k) as [c|] eqn:Hc;
        [|inversion H; subst; auto].
      destruct (spawn_ev c (ev_reset ev)) as [c' r'] eqn:Hs.
      assert (Hw : wiring <$> <[k := c']> (charging_stations (self L))
                   = wiring <$> charging_stations (self L)).
      { rewrite list_fmap_insert. apply list_insert_id.
        rewrite list_lookup_fmap, Hc. cbn.
        pose proof (Hk c (ev_reset ev)) as Hw. rewrite Hs in Hw.
        cbn in Hw. now rewrite Hw. }
      destruct r' as [e|].
      * inversion H; subst. exact Hw.
      * apply IH in H. rewrite H. cbn. now destruct (save_replay _).
    + destruct (time_of_arrival ev >? current_step (self L) + 1).
      * inversion H; subst; auto.
      * eauto.
Qed.

Lemma spawn_profiles_wiring L L' r :
  spawn_keeps_wiring ->
  spawn_profiles L = (L', r) ->
  wiring <$> charging_stations (self L') = wiring <$> charging_stations (self L).
Proof.
  intros Hk. unfold spawn_profiles. destruct (ev_profiles (self L)).
  - now apply profile_loop_wiring.
  - intros H; inversion H; subst; auto.
Qed.

(** C4: when a call of [step] returns, each transformer's [current_power]
    is the sum, from zero and in station order, of the [current_power_output]
    that the stations connected to it reported in this step; every station
    of the engine was stepped and reported once. Whatever [current_power] held before the call has no
    part in it: the accumulator is set to zero before any station reports.
    As [spawn_ev] leaves power output and transformer of a station alone,
    the sum is the same over the stations as the step leaves them. *)
Theorem transformer_power_is_step_load
    (s : EVCity) obs reward d s' tr :
  step s inp = (Returned obs reward d, s', tr) ->
  stepped tr = charging_stations s
  /\ length (reports tr) = length (charging_stations s)
  /\ length (transformers s') = length (transformers s)
  /\ forall k t,
       transformers s' !! k = Some t ->
       current_power t = load (length (transformers s')) k (reports tr)
       /\ (spawn_keeps_wiring ->
           current_power t
           = load (length (transformers s')) k (charging_stations s')).
Proof.
  intros H.
  destruct (step_covers inp _ _ _ _ _ _ H) as (Hall & _ & Hlen).
  split; [exact Hall|]. clear Hall.
  destruct (done s) eqn:Hd.
  { unfold step in H. rewrite Hd in H. discriminate. }
  destruct (step_running inp s _ _ _ Hd H)
    as [(L & e & _ & Ho & _)|[(L1 & L & e & _ & _ & Ho & _)
                              |(L1 & L & Hl & Hp & Hf & ->)]];
    try discriminate.
  symmetry in Hf. apply finish_returned in Hf.
  destruct Hf as (_ & _ & _ & Hs' & _).
  assert (Htr : transformers s' = transformers (self L1)).
  { rewrite Hs'. rewrite <- (spawn_profiles_transformers _ _ _ Hp).
    now destruct d. }
  assert (Hcs : charging_stations s' = charging_stations (self L)).
  { rewrite Hs'. now destruct d. }
  pose proof (station_loop_completes inp
                (fun _ _ L => aggregated (length (transformers s)) L)
                (fun pos c rest L L' => station_body_aggregated inp _ pos c L L')
                _ _ _ _ (begin_aggregated s) Hl) as [Hn HA].
  destruct (spawn_profiles_trace _ _ _ Hp) as (Hsp & _).
  inversion Hsp as [[Hsc Hco Hrep Hst]].
  split; [exact Hlen|]. rewrite Htr. split; [exact Hn|].
  intros k t Hk. rewrite Hn, Hrep. split; [now apply HA|].
  intros Hkeep. rewrite (HA _ _ Hk). apply load_wiring.
  pose proof (station_loop_completes inp wired
                (fun pos c rest L L' => station_body_wired pos c rest L L' Hkeep)
                (charging_stations s) 0%nat (begin s) L1) as HW.
  destruct HW as [HW _]; [split; reflexivity|exact Hl|].
  rewrite Hcs, (spawn_profiles_wiring _ _ _ Hkeep Hp), HW.
  cbn. now rewrite app_nil_r.
Qed.

End TransformerLoadOfStep.

Section RandomSpawning.

Context {C : Collaborators}.
Variable inp : Input.
Variable s0 : EVCity.

Lemma drop_head (l : list EV_Charger) pos c rest :
  c :: rest = drop pos l -> l !! pos = Some c /\ rest = drop (S pos) l.
Proof.
  intros H. split.
  - rewrite <- (Nat.add_0_r pos), <- lookup_drop, <- H. reflexivity.
  - replace (S pos) with (pos + 1)%nat by lia.
    rewrite <- drop_drop, <- H. reflexivity.
Qed.

Lemma station_body_random_mode pos c rest L L' :
  random_mode s0 pos (c :: rest) L -> station_body inp pos c L = (L', None) ->
  random_mode s0 (S pos) rest L'.
Proof.
  unfold random_mode. intros (Hd & Ht & Hc & He & Hp) H.
  apply drop_head in Hd. destruct Hd as [_ Hd].
  body_cases H; cbn [self trace log with_self] in *;
    repeat match goal with
           | |- context [if ?b then _ else _] => destruct b
           end; cbn in *; try congruence; auto.
Qed.

Lemma spawned_below_snoc pos L x :
  spawned_below inp s0 pos L -> random_spawn inp s0 x -> spawn_position x = pos ->
  Forall (random_spawn inp s0) (spawns (trace L) ++ [x])
  /\ Forall (fun x => (spawn_position x < S pos)%nat) (spawns (trace L) ++ [x])
  /\ NoDup (map spawn_position (spawns (trace L) ++ [x])).
Proof.
  intros (HF & HB & HN) Hx Hp. repeat split.
  - apply Forall_app; split; auto.
  - apply Forall_app; split.
    + eapply Forall_impl; [exact HB|]. cbn. intros; lia.
    + constructor; [lia|constructor].
  - rewrite map_app. cbn [map]. apply NoDup_app. repeat split; auto.
    + intros p Hin Hin2. apply list_elem_of_In in Hin.
      apply in_map_iff in Hin. destruct Hin as (y & <- & Hy).
      rewrite Forall_forall in HB. apply list_elem_of_In in Hy.
      specialize (HB _ Hy). apply list_elem_of_singleton in Hin2. lia.
    + apply NoDup_singleton.
Qed.

Lemma spawned_below_weaken pos L :
  spawned_below inp s0 pos L -> spawned_below inp s0 (S pos) L.
Proof.
  intros (HF & HB & HN). repeat split; auto.
  eapply Forall_impl; [exact HB|]. cbn. intros; lia.
Qed.

Lemma station_body_spawned pos c rest L L' r :
  random_mode s0 pos (c :: rest) L -> spawned_below inp s0 pos L ->
  station_body inp pos c L = (L', r) -> spawned_below inp s0 (S pos) L'.
Proof.
  intros (Hd & Ht & Hc & He & Hp) HS H.
  apply drop_head in Hd. destruct Hd as [Hd _].
  pose proof (spawned_below_weaken _ _ HS) as HW.
  body_cases H; unfold spawned_below in *;
    cbn [self trace log with_self] in *;
    rewrite ?spawns_app; cbn [spawns]; rewrite ?app_nil_r; auto.
  all: apply spawned_below_snoc; auto.
  all: cbn in *; repeat split; auto; try congruence.
  all: try (eexists; split; [exact Hd|lia]).
  all: rewrite <- ?Hc, <- ?Ht, <- ?He; auto.
  all: match goal with
       | Hg : negb _ && _ = true |- _ =>
           apply andb_true_iff in Hg; destruct Hg as [Hg _];
           apply negb_true_iff in Hg
       end; auto.
  all: unfold max_stay_of_ev in *; lia.
Qed.

End RandomSpawning.

Section RandomSpawningOfStep.

Context {C : Collaborators}.
Variable inp : Input.

Lemma station_loop_spawned (s : EVCity) L' r :
  ev_profiles s = None ->
  station_loop inp 0 (charging_stations s) (begin s) = (L', r) ->
  Forall (random_spawn inp s) (spawns (trace L'))
  /\ NoDup (map spawn_position (spawns (trace L')))
  /\ ev_profiles (self L') = None.
Proof.
  intros Hp Hl.
  set (P := fun pos todo L => random_mode s pos todo L
                              /\ spawned_below inp s pos L).
  assert (Hbody : forall pos c rest L L1,
             P pos (c :: rest) L -> station_body inp pos c L = (L1, None) ->
             P (S pos) rest L1).
  { intros pos c rest L L1 [HR HS] Hb. split.
    - eapply station_body_random_mode; eauto.
    - eapply station_body_spawned; eauto. }
  assert (H0 : P 0%nat (charging_stations s) (begin s)).
  { split.
    - unfold random_mode; cbn. auto.
    - unfold spawned_below; cbn. repeat split; constructor. }
  pose proof (station_loop_ev_profiles inp _ _ _ _ _ Hl) as Hev.
  cbn in Hev. rewrite Hp in Hev.
  destruct r as [e|].
  - destruct (station_loop_raises inp P Hbody _ _ _ _ _ H0 Hl)
      as (pos & c & rest & L0 & [HR HS] & Hb).
    destruct (station_body_spawned inp s _ _ _ _ _ _ HR HS Hb) as (HF & _ & HN).
    auto.
  - destruct (station_loop_completes inp P Hbody _ _ _ _ H0 Hl)
      as [_ (HF & _ & HN)].
    auto.
Qed.

(** C9: in random spawn mode, with draws in the ranges numpy documents,
    every EV passed to [spawn_ev] during a call of [step] at step [t] has a
    battery capacity at arrival in [1, 49), time of arrival [t + 1] and
    earliest departure [t + 1] plus an integer in [7, 15); it goes to the
    station whose turn it is, which has fewer EVs connected than ports.
    No station is called twice, and no call is made at all when the
    empty-ports-at-end policy is on and [t + 1 + 15] reaches the
    simulation length. This holds however the call of [step] ends. *)
Theorem random_mode_spawns (s : EVCity) o s' tr :
  ev_profiles s = None ->
  (forall pos, numpy_contract (np_random inp pos)) ->
  step s inp = (o, s', tr) ->
  Forall (fun x : nat * EV_Charger * EV =>
            let '(pos, c, ev) := x in
            (1 <= battery_capacity_at_arrival ev)%Q
            /\ (battery_capacity_at_arrival ev < 49)%Q
            /\ time_of_arrival ev = current_step s + 1
            /\ (exists k, 7 <= k < 15
                          /\ earlier_time_of_departure ev
                             = current_step s + 1 + k)
            /\ location ev = id c
            /\ exists c0, charging_stations s !! pos = Some c0
                          /\ n_evs_connected c < n_ports c0)
         (spawns tr)
  /\ NoDup (map spawn_position (spawns tr))
  /\ (empty_ports_at_end_of_simulation s = true ->
      simulation_length (config s) <= current_step s + 1 + 15 ->
      spawns tr = []).
Proof.
  intros Hp Hnp H.
  assert (HS : Forall (random_spawn inp s) (spawns tr)
               /\ NoDup (map spawn_position (spawns tr))).
  { destruct (done s) eqn:Hd.
    { unfold step in H. rewrite Hd in H. inversion H; subst.
      split; constructor. }
    destruct (step_running inp s _ _ _ Hd H)
      as [(L & e & Hl & _ & _ & ->)|[(L1 & L & e & Hl & Hsp & _ & _ & ->)
                                     |(L1 & L & Hl & Hsp & _ & ->)]].
    - destruct (station_loop_spawned _ _ _ Hp Hl) as (HF & HN & _). auto.
    - destruct (station_loop_spawned _ _ _ Hp Hl) as (HF & HN & Hev).
      unfold spawn_profiles in Hsp. rewrite Hev in Hsp. discriminate.
    - destruct (station_loop_spawned _ _ _ Hp Hl) as (HF & HN & Hev).
      unfold spawn_profiles in Hsp. rewrite Hev in Hsp.
      inversion Hsp; subst. auto. }
  destruct HS as [HF HN]. split; [|split; [exact HN|]].
  - eapply Forall_impl; [exact HF|].
    intros [[pos c] ev] (-> & _ & Hfree & _). cbn.
    destruct (Hnp pos) as (_ & _ & Hlo & Hhi & Hk).
    repeat split; auto. eauto.
  - intros He Hlen. destruct (spawns tr) as [|[[pos c] ev] rest]; [reflexivity|].
    apply Forall_cons in HF. destruct HF as [(_ & _ & _ & Hg & _) _].
    rewrite He in Hg. unfold max_stay_of_ev in Hg. cbn in Hg. lia.
Qed.

End RandomSpawningOfStep.

Section Errors.

Context {C : Collaborators}.
Variable inp : Input.

(** The profile loop raises only for a location that names no station or
    from inside [spawn_ev]. *)
Lemma profile_loop_errors todo i L L' e :
  profile_loop i todo L = (L', Some e) ->
  e = Engine IndexError_charging_stations \/ exists x, e = In_spawn_ev x.
Proof.
  revert i L. induction todo as [|ev rest IH]; intros i L H; simpl in H.
  - discriminate.
  - destruct (time_of_arrival ev =? current_step (self L) + 1).
    + destruct (Py.pos _ _) as [k|]; [|inversion H; subst; auto].
      destruct (_ !! k) as [c|]; [|inversion H; subst; auto].
      destruct (spawn_ev c (ev_reset ev)) as [c' [x|]].
      * inversion H; subst; eauto.
      * eauto.
    + destruct (time_of_arrival ev >? current_step (self L) + 1).
      * discriminate.
      * eauto.
Qed.

Lemma spawn_profiles_errors L L' e :
  spawn_profiles L = (L', Some e) ->
  e = Engine IndexError_charging_stations \/ exists x, e = In_spawn_ev x.
Proof.
  unfold spawn_profiles. destruct (ev_profiles (self L)).
  - apply profile_loop_errors.
  - discriminate.
Qed.

Lemma finish_errors L e s' :
  finish L = (Raised e, s') -> e = Engine NotImplementedError_grid.
Proof.
  unfold finish. destruct (simulate_grid _).
  - intros H; inversion H; auto.
  - destruct (episode_is_done _ _); discriminate.
Qed.

(** An exception other than the one of the grid branch leaves the step
    counter and the [done] flag as they were. *)
Lemma step_raised_frame s e s' tr :
  step s inp = (Raised e, s', tr) ->
  e <> Engine NotImplementedError_grid ->
  config s' = config s /\ current_step s' = current_step s
  /\ done s' = done s.
Proof.
  intros H Hne. destruct (done s) eqn:Hd.
  { unfold step in H. rewrite Hd in H. inversion H; subst. auto. }
  destruct (step_running inp s _ _ _ Hd H)
    as [(L & e' & Hl & _ & -> & _)|[(L1 & L & e' & Hl & Hp & _ & -> & _)
                                    |(L1 & L & Hl & Hp & Hf & _)]].
  - apply station_loop_frame in Hl. destruct Hl as (Hc & Hs & Hdn & _).
    cbn in *. repeat split; congruence.
  - apply station_loop_frame in Hl. apply spawn_profiles_frame in Hp.
    destruct Hl as (Hc & Hs & Hdn & _). destruct Hp as (Hc' & Hs' & Hdn' & _).
    cbn in *. repeat split; congruence.
  - symmetry in Hf. apply finish_errors in Hf. contradiction.
Qed.

Lemma station_body_past_test pos c L L' :
  station_body inp pos c L = (L', None) -> past_max_stay_test L'.
Proof.
  intros H. unfold past_max_stay_test.
  body_cases H; cbn [self trace log with_self] in *;
    repeat match goal with
           | |- context [if ?b then _ else _] => destruct b
           end; cbn in *;
    try (left; congruence); right; unfold max_stay_of_ev in *; lia.
Qed.

Lemma station_body_max_stay pos c L L' :
  station_body inp pos c L = (L', Some (Engine ValueError_max_stay)) ->
  ev_profiles (self L) = None
  /\ simulation_length (config (self L)) < max_stay_of_ev
  /\ exists cp dp c' cost sat k,
       Py.index2 (charge_prices (config (self L))) (id c)
                 (current_step (self L)) = Some cp
       /\ Py.index2 (discharge_prices (config (self L))) (id c)
                    (current_step (self L)) = Some dp
       /\ cs_step c (Py.slice (actions inp) (port_counter L)
                              (port_counter L + n_ports c)) cp dp
          = (c', inr (cost, sat))
       /\ Py.pos (length (transformers (self L))) (connected_transformer c')
          = Some k
       /\ trace L'
          = trace L ++ [CsStep pos c
                          (Py.slice (actions inp) (port_counter L)
                                    (port_counter L + n_ports c))
                          cp dp c' (inr (cost, sat))]
       /\ self L'
          = set_empty_ports_at_end_of_simulation
              (set_current_ev_departed
                 (set_transformers
                    (set_station (self L) pos c')
                    (alter (fun t => TransformerM.step t (current_power_output c'))
                           k (transformers (self L))))
                 (current_ev_departed (self L) + Py.len sat))
              false.
Proof.
  intros H.
  body_cases H; cbn [self trace log with_self] in *; cbn in *.
  split; [assumption|]. split; [unfold max_stay_of_ev in *; lia|].
  eexists _, _, _, _, _, _. repeat split; eauto.
Qed.

End Errors.

Section MaxStay.

Context {C : Collaborators}.
Variable inp : Input.

(** The maximum-stay error comes from the first iteration of the station
    loop. *)
Lemma station_loop_max_stay (s : EVCity) L' :
  station_loop inp 0 (charging_stations s) (begin s)
  = (L', Some (Engine ValueError_max_stay)) ->
  exists c rest,
    charging_stations s = c :: rest
    /\ station_body inp 0 c (begin s) = (L', Some (Engine ValueError_max_stay)).
Proof.
  intros Hl.
  set (P := fun (pos : nat) (todo : list EV_Charger) (L : Loop) =>
              (pos = 0%nat /\ todo = charging_stations s /\ L = begin s)
              \/ past_max_stay_test L).
  assert (Hbody : forall pos c rest L L1,
             P pos (c :: rest) L -> station_body inp pos c L = (L1, None) ->
             P (S pos) rest L1).
  { intros pos c rest L L1 _ Hb. right. eapply station_body_past_test; eauto. }
  assert (H0 : P 0%nat (charging_stations s) (begin s)) by (left; auto).
  destruct (station_loop_raises inp P Hbody _ _ _ _ _ H0 Hl)
    as (pos & c & rest & L0 & [(-> & Hc & ->)|Hpast] & Hb).
  - exists c, rest. auto.
  - apply station_body_max_stay in Hb. destruct Hb as (Hp & Hlen & _).
    destruct Hpast as [Hpast|Hpast]; [contradiction|lia].
Qed.

(** C10: [step] is not atomic on the maximum-stay error. When it raises
    that error, no EV profile is loaded and the simulation length is
    below 15; the first station has been stepped with the first [n_ports]
    actions and the prices of this step, and it is the only call made; the
    engine is left with that station as its [step] left it, every
    transformer's [current_power] set to zero and the power output of that
    station added to its transformer, the departures of that station
    counted and [empty_ports_at_end_of_simulation] cleared, while the step
    counter has not moved and [done] is still false. *)
Theorem max_stay_error_leaves_mutation (s : EVCity) s' tr :
  step s inp = (Raised (Engine ValueError_max_stay), s', tr) ->
  ev_profiles s = None
  /\ simulation_length (config s) < 15
  /\ exists c rest cp dp c' cost sat k,
       charging_stations s = c :: rest
       /\ Py.index2 (charge_prices (config s)) (id c) (current_step s) = Some cp
       /\ Py.index2 (discharge_prices (config s)) (id c) (current_step s)
          = Some dp
       /\ cs_step c (Py.slice (actions inp) 0 (n_ports c)) cp dp
          = (c', inr (cost, sat))
       /\ tr = [CsStep 0 c (Py.slice (actions inp) 0 (n_ports c)) cp dp c'
                       (inr (cost, sat))]
       /\ Py.pos (length (transformers s)) (connected_transformer c') = Some k
       /\ charging_stations s' = c' :: rest
       /\ transformers s'
          = alter (fun t => TransformerM.step t (current_power_output c')) k
                  (map (fun t => TransformerM.set_current_power t 0%Q)
                       (transformers s))
       /\ current_ev_departed s' = Py.len sat
       /\ current_ev_arrived s' = 0
       /\ empty_ports_at_end_of_simulation s' = false
       /\ current_step s' = current_step s
       /\ total_evs_spawned s' = total_evs_spawned s
       /\ done s = false /\ done s' = false.
Proof.
  intros H. destruct (done s) eqn:Hd.
  { unfold step in H. rewrite Hd in H. discriminate. }
  destruct (step_running inp s _ _ _ Hd H)
    as [(L & e' & Hl & He & -> & ->)|[(L1 & L & e' & Hl & Hp & He & -> & ->)
                                      |(L1 & L & Hl & Hp & Hf & _)]].
  - inversion He; subst e'; clear He.
    apply station_loop_max_stay in Hl. destruct Hl as (c & rest & Hcs & Hb).
    apply station_body_max_stay in Hb.
    destruct Hb as (Hpr & Hlen & cp & dp & c' & cost & sat & k
                    & Hcp & Hdp & Hstep & Hk & Htr & Hself).
    cbn in Hpr, Hlen, Hcp, Hdp, Hstep, Hk, Htr.
    rewrite length_map in Hk.
    split; [exact Hpr|]. split; [exact Hlen|].
    exists c, rest, cp, dp, c', cost, sat, k.
    rewrite Hself, Htr. cbn. rewrite Hcs, Hd. cbn.
    repeat split; auto.
  - inversion He; subst e'; clear He.
    apply spawn_profiles_errors in Hp. destruct Hp as [Hp|[x Hp]]; discriminate.
  - symmetry in Hf. apply finish_errors in Hf. discriminate.
Qed.

(** C8: with no EV profile loaded and a simulation length below the
    maximum stay of 15 steps, a call of [step] on a running engine whose
    first station's call goes through ends in the maximum-stay [ValueError];
    it does so in the first iteration of the station loop, with no call of
    [spawn_ev] made and the count of spawned EVs unchanged. This is so for
    the first call and for every later one. *)
Theorem max_stay_error_raised (s : EVCity) :
  ev_profiles s = None ->
  simulation_length (config s) < 15 ->
  done s = false ->
  first_station_steps inp s ->
  exists s' tr,
    step s inp = (Raised (Engine ValueError_max_stay), s', tr)
    /\ spawns tr = []
    /\ total_evs_spawned s' = total_evs_spawned s
    /\ EVs s' = EVs s
    /\ current_step s' = current_step s.
Proof.
  intros Hp Hlen Hd (c & rest & cp & dp & c' & [cost sat] & k
                     & Hcs & Hcp & Hdp & Hstep & Hk).
  destruct (station_body inp 0 c (begin s)) as [L' r] eqn:Hb.
  assert (HL : r = Some (Engine ValueError_max_stay)
               /\ spawns (trace L') = []
               /\ total_evs_spawned (self L') = total_evs_spawned s
               /\ EVs (self L') = EVs s
               /\ current_step (self L') = current_step s).
  { body_cases Hb; cbn in *;
      rewrite ?length_map, ?Z.add_0_l in *;
      try congruence; try (unfold max_stay_of_ev in *; lia).
    repeat split; reflexivity. }
  destruct HL as (-> & HL).
  unfold step. rewrite Hd.
  change (charging_stations (self (begin s))) with (charging_stations s).
  rewrite Hcs. cbn [station_loop]. rewrite Hb.
  eexists _, _. split; [reflexivity|exact HL].
Qed.

End MaxStay.

Section ShortActions.

Context {C : Collaborators}.
Variable inp : Input.

Lemma slice_full {A} (l : list A) (a n : Z) :
  0 <= a <= Py.len l -> Py.len (Py.slice l a (a + n)) = n ->
  0 <= n /\ a + n <= Py.len l.
Proof.
  unfold Py.len, Py.slice, Py.clamp. intros Ha.
  rewrite length_take, length_drop.
  destruct (Z.ltb_spec a 0); [lia|].
  destruct (Z.ltb_spec (a + n) 0); lia.
Qed.

Lemma station_body_within total pos c rest L L' :
  one_action_per_port ->
  within_actions inp total pos (c :: rest) L ->
  station_body inp pos c L = (L', None) ->
  within_actions inp total (S pos) rest L'.
Proof.
  unfold within_actions. intros Hone [Hpc Htot] H. cbn in Htot.
  body_cases H; cbn [port_counter self trace log with_self];
    match goal with
    | Hs : cs_step _ _ _ _ = (_, inr _) |- _ =>
        apply Hone in Hs; apply slice_full in Hs; [|exact Hpc]
    end; lia.
Qed.

(** C2, as the code has it: [step] does not compare the length of the
    action vector with the port count; each station is handed the slice
    [actions[port_counter:port_counter + n_ports]]. With an action vector
    shorter than the total port count and stations whose [step] takes one
    action per port and nothing else, a call on a running engine ends in
    an exception raised before the step counter is advanced: the counter
    and the configuration are as before and [done] is still false. *)
Theorem short_action_vector_fails (s : EVCity) :
  one_action_per_port ->
  done s = false ->
  Py.len (actions inp) < total_ports s ->
  exists e s' tr,
    step s inp = (Raised e, s', tr)
    /\ e <> Engine AssertionError_episode_done
    /\ current_step s' = current_step s
    /\ done s' = false
    /\ config s' = config s.
Proof.
  intros Hone Hd Hshort.
  destruct (step s inp) as [[o s'] tr] eqn:H.
  destruct (step_running inp s _ _ _ Hd H)
    as [(L & e & Hl & -> & -> & ->)|[(L1 & L & e & Hl & Hp & _)
                                     |(L1 & L & Hl & Hp & _)]].
  - exists e, (self L), (trace L). split; [reflexivity|].
    pose proof (station_loop_frame inp _ _ _ _ _ Hl) as (Hc & Hs & Hdn & _).
    cbn in Hc, Hs, Hdn. 
    assert (He : e <> Engine AssertionError_episode_done).
    { assert (Hcases : forall pos c L0 L1,
                 station_body inp pos c L0
                 <> (L1, Some (Engine AssertionError_episode_done))).
      { intros pos c L0 L2 Hb. body_cases Hb. }
      intros ->.
      destruct (station_loop_raises inp (fun _ _ _ => True)
                  (fun _ _ _ _ _ _ _ => I) _ _ _ _ _ I Hl)
        as (pos & c & rest & L0 & _ & Hb).
      exact (Hcases _ _ _ _ Hb). }
    repeat split; auto. congruence.
  - exfalso.
    pose proof (station_loop_completes inp (within_actions inp (total_ports s))
                  (fun pos c rest L L' => station_body_within _ pos c rest L L' Hone)
                  (charging_stations s) 0%nat (begin s) L1) as HW.
    destruct HW as [Hpc Htot]; [|exact Hl|cbn in Htot; lia].
    split; cbn; [unfold Py.len; lia|reflexivity].
  - exfalso.
    pose proof (station_loop_completes inp (within_actions inp (total_ports s))
                  (fun pos c rest L L' => station_body_within _ pos c rest L L' Hone)
                  (charging_stations s) 0%nat (begin s) L1) as HW.
    destruct HW as [Hpc Htot]; [|exact Hl|cbn in Htot; lia].
    split; cbn; [unfold Py.len; lia|reflexivity].
Qed.

(** C3: [reset] sets the step counter to zero, resets every station and
    returns the observation of the engine so reset; it does not assign
    [done]. After an episode has finished the flag is therefore still set
    and the next call of [step] is refused. *)
Theorem reset_keeps_done (s : EVCity) :
  done s = true ->
  current_step (snd (reset s)) = 0
  /\ charging_stations (snd (reset s)) = map cs_reset (charging_stations s)
  /\ fst (reset s) = _get_observation (snd (reset s))
  /\ done (snd (reset s)) = true
  /\ step (snd (reset s)) inp
     = (Raised (Engine AssertionError_episode_done), snd (reset s), []).
Proof.
  intros Hd. cbn. unfold step. cbn. rewrite Hd. repeat split; reflexivity.
Qed.

End ShortActions.

Section OnTheStationDouble.

#[local] Existing Instance mock.

(** The scenario of ten steps with an empty profile: no EV is spawned, the
    reward is zero throughout, nine calls return [done = false] and the
    tenth returns [done = true]; an eleventh call is refused. *)
Example ten_steps_then_done :
  let '(outs, s') := run Ex.ten_step_city (repeat Ex.idle_input 11) in
  map returned_done outs
  = repeat false 9 ++ [true; false]
  /\ map returned outs = repeat true 10 ++ [false]
  /\ nth_error outs 10 = Some (Raised (Engine AssertionError_episode_done))
  /\ current_step s' = 10 /\ total_evs_spawned s' = 0 /\ done s' = true.
Proof. vm_compute. repeat split; reflexivity. Qed.

(** A transformer loaded above its rating ends the episode at once,
    unless the random-game mode is on. *)
Example overload_ends_episode :
  returned_done (fst (fst (step Ex.hot_city Ex.two_actions))) = true
  /\ returned_done (fst (fst (step Ex.hot_random_game Ex.two_actions))) = false
  /\ returned (fst (fst (step Ex.hot_random_game Ex.two_actions))) = true.
Proof. vm_compute. repeat split; reflexivity. Qed.

(** A satisfaction score below the threshold ends the episode. *)
Example low_score_ends_episode :
  returned_done (fst (fst (step Ex.unhappy_city Ex.idle_input))) = true
  /\ returned_done (fst (fst (step Ex.replay_city Ex.idle_input))) = false.
Proof. vm_compute. repeat split; reflexivity. Qed.

(** In random mode a station with a free port gets the EV that was drawn:
    the engine counts it and keeps it for the replay. *)
Example random_spawn_at_free_port :
  let '(o, s', tr) := step Ex.random_city Ex.random_input in
  returned o = true
  /\ total_evs_spawned s' = 1 /\ current_ev_arrived s' = 1
  /\ current_evs_parked s' = 1
  /\ EVs s' = [mkEV None 0 20%Q 1 9]
  /\ map evs_connected (charging_stations s')
     = [[Some (mkEV None 0 20%Q 1 9); None]].
Proof. vm_compute. repeat split; reflexivity. Qed.

(** C2: the engine is not left as it was. In the middle of an episode,
    with one EV parked at the only port, an empty action vector makes the
    station reject its slice; the call fails, but the count of arrivals of
    the previous step has already been set to zero. *)
Lemma short_action_vector_changes_state :
  Py.len (actions Ex.no_actions) < total_ports Ex.parked_city
  /\ done Ex.parked_city = false
  /\ exists s' tr,
       step Ex.parked_city Ex.no_actions
       = (Raised (In_cs_step "one action per port"%string), s', tr)
       /\ current_ev_arrived Ex.parked_city = 1
       /\ current_ev_arrived s' = 0
       /\ s' <> Ex.parked_city.
Proof.
  split; [reflexivity|]. split; [reflexivity|].
  eexists _, _. split; [vm_compute; reflexivity|].
  split; [reflexivity|]. split; [reflexivity|].
  intros H. apply (f_equal current_ev_arrived) in H. discriminate H.
Qed.

(** C7: the profile path calls [spawn_ev] without looking at the free
    ports. With two EVs of the profile arriving at the same step at a
    station with one port, the second call finds the port taken and the
    capacity error comes out of [step]. *)
Theorem profile_spawn_on_full_station :
  exists s' c,
    step Ex.clash_city Ex.idle_input
    = (Raised (In_spawn_ev "no free port"%string), s',
       [CsStep 0 (Ex.idle 0 0 1 [None]) [0%Q] (-0.05)%Q 0.1%Q
               (Ex.idle 0 0 1 [None]) (inr (0%Q, []));
        SpawnEv 0 (Ex.idle 0 0 1 [None]) Ex.ev_a c None;
        SpawnEv 0 c Ex.ev_b c (Some "no free port"%string)])
    /\ n_evs_connected c >= n_ports c.
Proof.
  eexists _, _. split; [vm_compute; reflexivity|]. vm_compute. discriminate.
Qed.

(** C1: the bound of [simulation_length] steps fails when the simulation
    length is below one. An engine built from a replay keeps the
    [simulation_length] given to the constructor; with [simulation_length
    = 0] its first call of [step], at step 0, returns (with [done = true]):
    the episode has one step, which is more than the simulation length. *)
Lemma episode_longer_than_simulation_length :
  current_step Ex.zero_length_replay_city = 0
  /\ done Ex.zero_length_replay_city = false
  /\ simulation_length (config Ex.zero_length_replay_city) = 0
  /\ exists obs reward s' tr,
       step Ex.zero_length_replay_city Ex.idle_input
       = (Returned obs reward true, s', tr)
       /\ run Ex.zero_length_replay_city [Ex.idle_input]
          = ([Returned obs reward true], s')
       /\ forallb returned [Returned obs reward true] = true
       /\ current_step s' = 1
       /\ simulation_length (config Ex.zero_length_replay_city)
          < Z.of_nat (length [Ex.idle_input]).
Proof.
  split; [reflexivity|]. split; [reflexivity|]. split; [reflexivity|].
  eexists _, _, _, _. split; [vm_compute; reflexivity|].
  split; [vm_compute; reflexivity|].
  split; [reflexivity|]. split; [reflexivity|]. cbn. lia.
Qed.

(** C8: the maximum-stay error is not always the one that is raised. The
    engine of [EVCity(cs=1, simulation_length=0)] has no EV profile and a
    simulation length below 15; its price matrices have no column, so its
    first call of [step] fails on the price lookup of the first station,
    with an [IndexError], before the station is stepped and before the
    maximum-stay test is reached. *)
Lemma max_stay_error_not_raised :
  ev_profiles Ex.zero_length_city = None
  /\ simulation_length (config Ex.zero_length_city) < 15
  /\ done Ex.zero_length_city = false
  /\ current_step Ex.zero_length_city = 0
  /\ charge_prices (config Ex.zero_length_city) = [[]]
  /\ exists s',
       step Ex.zero_length_city Ex.idle_input
       = (Raised (Engine IndexError_prices), s', [])
       /\ Raised (Engine IndexError_prices)
          <> Raised (Engine ValueError_max_stay)
       /\ ~ first_station_steps Ex.idle_input Ex.zero_length_city.
Proof.
  split; [reflexivity|]. split; [reflexivity|]. split; [reflexivity|].
  split; [reflexivity|]. split; [reflexivity|].
  eexists. split; [vm_compute; reflexivity|]. split; [discriminate|].
  intros (c & rest & cp & dp & c' & ret & k & Hcs & Hcp & _).
  inversion Hcs; subst c rest; clear Hcs. discriminate Hcp.
Qed.

Lemma mock_one_action_per_port : one_action_per_port.
Proof.
  intros c acts cp dp c' ret H. cbn in H. unfold MockM.step in H.
  destruct (Z.eqb_spec (Py.len acts) (m_n_ports c)); [assumption|discriminate].
Qed.

Lemma mock_spawn_keeps_wiring : spawn_keeps_wiring.
Proof.
  intros c ev. cbn. unfold MockM.spawn_ev.
  destruct (MockM.occupy (evs_connected c) ev); reflexivity.
Qed.

Lemma draws_in_range : forall pos, numpy_contract (Ex.draws 0.5%Q 20%Q 8 pos).
Proof.
  intros pos. unfold numpy_contract, Qle, Qlt. cbn. lia.
Qed.

Lemma short_action_vector_fails_witness :
  Py.len (actions Ex.no_actions) < total_ports Ex.parked_city
  /\ exists e s' tr,
       step Ex.parked_city Ex.no_actions = (Raised e, s', tr)
       /\ e <> Engine AssertionError_episode_done
       /\ current_step s' = current_step Ex.parked_city
       /\ done s' = false
       /\ config s' = config Ex.parked_city.
Proof.
  split; [reflexivity|].
  apply (short_action_vector_fails Ex.no_actions Ex.parked_city
           mock_one_action_per_port); reflexivity.
Defined.

Lemma reset_keeps_done_witness :
  done Ex.finished_city = true
  /\ done (snd (reset Ex.finished_city)) = true
  /\ step (snd (reset Ex.finished_city)) Ex.idle_input
     = (Raised (Engine AssertionError_episode_done),
        snd (reset Ex.finished_city), []).
Proof.
  split; [reflexivity|].
  exact (proj2 (proj2 (proj2
           (reset_keeps_done Ex.idle_input Ex.finished_city eq_refl)))).
Defined.

Lemma transformer_power_is_step_load_witness :
  exists obs reward d s' tr t0 t1,
    step Ex.two_stations Ex.two_actions = (Returned obs reward d, s', tr)
    /\ transformers s' = [t0; t1]
    /\ current_power t0 = 3%Q /\ current_power t1 = 4%Q
    /\ current_power t0 = load 2 0 (charging_stations s')
    /\ current_power t1 = load 2 1 (charging_stations s').
Proof.
  eexists _, _, _, _, _, _, _.
  assert (H : step Ex.two_stations Ex.two_actions = (Returned _ _ _, _, _))
    by (vm_compute; reflexivity).
  split; [exact H|]. split; [reflexivity|].
  split; [reflexivity|]. split; [reflexivity|].
  pose proof (transformer_power_is_step_load _ _ _ _ _ _ _ H)
    as (_ & _ & _ & HT).
  split.
  - exact (proj2 (HT 0%nat _ eq_refl) mock_spawn_keeps_wiring).
  - exact (proj2 (HT 1%nat _ eq_refl) mock_spawn_keeps_wiring).
Defined.

Lemma max_stay_error_raised_witness :
  ev_profiles Ex.short_city = None
  /\ simulation_length (config Ex.short_city) < 15
  /\ exists s' tr,
       step Ex.short_city Ex.idle_input
       = (Raised (Engine ValueError_max_stay), s', tr)
       /\ spawns tr = []
       /\ total_evs_spawned s' = total_evs_spawned Ex.short_city
       /\ EVs s' = EVs Ex.short_city
       /\ current_step s' = current_step Ex.short_city.
Proof.
  split; [reflexivity|]. split; [reflexivity|].
  apply (max_stay_error_raised Ex.idle_input Ex.short_city);
    [reflexivity|reflexivity|reflexivity|].
  eexists _, _, _, _, _, _, _.
  repeat split; vm_compute; reflexivity.
Defined.

Lemma max_stay_error_leaves_mutation_witness :
  exists s' tr,
    step Ex.short_city Ex.idle_input
    = (Raised (Engine ValueError_max_stay), s', tr)
    /\ empty_ports_at_end_of_simulation Ex.short_city = true
    /\ empty_ports_at_end_of_simulation s' = false
    /\ current_step s' = current_step Ex.short_city
    /\ length tr = 1%nat.
Proof.
  eexists _, _.
  assert (H : step Ex.short_city Ex.idle_input
              = (Raised (Engine ValueError_max_stay), _, _))
    by (vm_compute; reflexivity).
  split; [exact H|]. split; [reflexivity|].
  destruct (max_stay_error_leaves_mutation _ _ _ _ H)
    as (_ & _ & c & rest & cp & dp & c' & cost & sat & k & _ & _ & _ & _
        & Htr & _ & _ & _ & _ & _ & He & Hs & _).
  split; [exact He|]. split; [exact Hs|reflexivity].
Defined.

Lemma random_mode_spawns_witness :
  ev_profiles Ex.random_city = None
  /\ exists o s' tr pos c ev,
       step Ex.random_city Ex.random_input = (o, s', tr)
       /\ spawns tr = [(pos, c, ev)]
       /\ (1 <= battery_capacity_at_arrival ev)%Q
       /\ (battery_capacity_at_arrival ev < 49)%Q
       /\ time_of_arrival ev = 1
       /\ earlier_time_of_departure ev = 9.
Proof.
  split; [reflexivity|].
  eexists _, _, _, _, _, _.
  assert (H : step Ex.random_city Ex.random_input = (_, _, _))
    by (vm_compute; reflexivity).
  split; [exact H|]. split; [reflexivity|].
  pose proof (random_mode_spawns Ex.random_input Ex.random_city _ _ _
                eq_refl draws_in_range H) as (HF & _).
  apply Forall_cons in HF. destruct HF as [(Hlo & Hhi & _) _].
  split; [exact Hlo|]. split; [exact Hhi|]. split; reflexivity.
Defined.

End OnTheStationDouble.

(** * Further properties of the engine *)

Section Bookkeeping.

Context {C : Collaborators}.
Variable inp : Input.

Lemma slices_app (a b : list Event) : slices (a ++ b) = slices a ++ slices b.
Proof.
  induction a as [|e a IH]; simpl; [reflexivity|].
  destruct e; simpl; rewrite IH; auto.
Qed.

Lemma spawned_evs_app (a b : list Event) :
  spawned_evs (a ++ b) = spawned_evs a ++ spawned_evs b.
Proof. unfold spawned_evs. now rewrite spawns_app, map_app. Qed.

Lemma len_app {A} (a b : list A) : Py.len (a ++ b) = Py.len a + Py.len b.
Proof. unfold Py.len. rewrite length_app. lia. Qed.

(** The profile loop adds calls of [spawn_ev] to the trace and nothing
    else. *)
Lemma profile_loop_appends todo i L L' r :
  profile_loop i todo L = (L', r) ->
  exists ext, trace L' = trace L ++ ext /\ Forall is_spawn ext.
Proof.
  revert i L. induction todo as [|ev rest IH]; intros i L H; simpl in H.
  - inversion H; subst. exists []. now rewrite app_nil_r.
  - destruct (time_of_arrival ev =? current_step (self L) + 1).
    + destruct (Py.pos _ _) as [k|];
        [|inversion H; subst; exists []; now rewrite app_nil_r].
      destruct (_ !! k) as [c|];
        [|inversion H; subst; exists []; now rewrite app_nil_r].
      destruct (spawn_ev c (ev_reset ev)) as [c' [e|]].
      * inversion H; subst. cbn. eexists. split; [reflexivity|].
        repeat constructor.
      * apply IH in H. destruct H as (ext & Ht & HF). cbn in Ht.
        exists (SpawnEv k c (ev_reset ev) c' None :: ext).
        rewrite Ht, <- app_assoc. split; [reflexivity|].
        constructor; [exact I|exact HF].
    + destruct (time_of_arrival ev >? current_step (self L) + 1).
      * inversion H; subst. exists []. now rewrite app_nil_r.
      * eauto.
Qed.

Lemma spawn_profiles_appends L L' r :
  spawn_profiles L = (L', r) ->
  exists ext, trace L' = trace L ++ ext /\ Forall is_spawn ext.
Proof.
  unfold spawn_profiles. destruct (ev_profiles (self L)).
  - apply profile_loop_appends.
  - intros H; inversion H; subst. exists []. now rewrite app_nil_r.
Qed.

Lemma slices_spawns ext : Forall is_spawn ext -> slices ext = [].
Proof.
  induction 1 as [|e ext He _ IH]; [reflexivity|].
  destruct e; [destruct He|exact IH].
Qed.

Lemma station_body_accounted s0 pos c L L' :
  accounted s0 L -> station_body inp pos c L = (L', None) -> accounted s0 L'.
Proof.
  unfold accounted. intros (Ha & Hd & Ht & He & Hc & Hp & Hs & Hn) H.
  assert (Hsr : save_replay (config (self L)) = save_replay (config s0))
    by now rewrite Hc.
  destruct (save_replay (config s0));
    body_cases H; cbn [self trace log with_self] in *; cbn;
    rewrite ?Hsr; cbn;
    rewrite ?scores_app, ?spawns_app, ?spawned_evs_app, ?len_app;
    cbn [scores spawns spawned_evs map snd]; rewrite ?app_nil_r;
    unfold Py.len in *; cbn [length];
    rewrite ?He, ?app_nil_r, <- ?app_assoc;
    repeat split; auto; try lia; cbn in *; congruence.
Qed.

End Bookkeeping.

Section BookkeepingOfStep.

Context {C : Collaborators}.
Variable inp : Input.

Lemma profile_loop_accounted s0 todo i L L' :
  accounted s0 L -> profile_loop i todo L = (L', None) -> accounted s0 L'.
Proof.
  revert i L. induction todo as [|ev rest IH]; intros i L HA H; simpl in H.
  - inversion H; subst. exact HA.
  - destruct (time_of_arrival ev =? current_step (self L) + 1).
    + destruct (Py.pos _ _) as [k|]; [|discriminate].
      destruct (_ !! k) as [c|]; [|discriminate].
      destruct (spawn_ev c (ev_reset ev)) as [c' [e|]]; [discriminate|].
      eapply IH; [|exact H].
      destruct HA as (Ha & Hd & Ht & He & Hc & Hp & Hs & Hn).
      unfold accounted. cbn [self trace log with_self]. cbn.
      rewrite Hc.
      destruct (save_replay (config s0)); cbn;
        rewrite ?scores_app, ?spawns_app, ?spawned_evs_app, ?len_app;
        cbn [scores spawns spawned_evs map snd]; rewrite ?app_nil_r;
        unfold Py.len in *; cbn [length];
        rewrite ?He, ?app_nil_r, <- ?app_assoc;
        repeat split; auto; lia.
    + destruct (time_of_arrival ev >? current_step (self L) + 1).
      * inversion H; subst. exact HA.
      * eauto.
Qed.

Lemma begin_accounted s : accounted s (begin s).
Proof.
  unfold accounted; cbn. destruct (save_replay (config s));
    rewrite app_nil_r; repeat split; try reflexivity;
    unfold Py.len; cbn; lia.
Qed.

(** The loops of a call that returns leave the bookkeeping in step with
    the trace. *)
Lemma step_returned_accounted s obs reward d s' tr :
  step s inp = (Returned obs reward d, s', tr) ->
  exists L, finish L = (Returned obs reward d, s')
            /\ tr = trace L /\ accounted s L.
Proof.
  intros H. destruct (done s) eqn:Hd.
  { unfold step in H. rewrite Hd in H. discriminate. }
  destruct (step_running inp s _ _ _ Hd H)
    as [(L & e & _ & Ho & _)|[(L1 & L & e & _ & _ & Ho & _)
                              |(L1 & L & Hl & Hp & Hf & ->)]];
    try discriminate.
  exists L. split; [auto|]. split; [reflexivity|].
  apply (station_loop_completes inp (fun _ _ L => accounted s L)
           (fun pos c rest L L' => station_body_accounted inp s pos c L L'))
    in Hl; [|apply begin_accounted].
  unfold spawn_profiles in Hp. destruct (ev_profiles (self L1)).
  - eapply profile_loop_accounted; eauto.
  - inversion Hp; subst. exact Hl.
Qed.

(** X1: the bookkeeping of a call of [step] that returns. The arrivals of
    the step are the calls of [spawn_ev] made, its departures the
    satisfaction scores the stations returned; the count of spawned EVs
    grows by the arrivals, the count of parked EVs by arrivals minus
    departures, and the simulated date by one timescale. *)
Theorem step_bookkeeping (s : EVCity) obs reward d s' tr :
  step s inp = (Returned obs reward d, s', tr) ->
  current_ev_arrived s' = Py.len (spawns tr)
  /\ current_ev_departed s' = Py.len (scores tr)
  /\ total_evs_spawned s' = total_evs_spawned s + Py.len (spawns tr)
  /\ current_evs_parked s'
     = current_evs_parked s + Py.len (spawns tr) - Py.len (scores tr)
  /\ sim_date s' = sim_date s + timescale (config s).
Proof.
  intros H. apply step_returned_accounted in H.
  destruct H as (L & Hf & -> & (Ha & Hd & Ht & He & Hc & Hp & Hs & Hn)).
  apply finish_returned in Hf. destruct Hf as (_ & _ & _ & -> & _).
  destruct d; cbn; rewrite Ha, Hd, Ht, Hp, Hs, Hc; repeat split; lia.
Qed.

(** X2: the list kept for the replay. When [save_replay] is set, a call of
    [step] that returns appends to [EVs] the EVs it passed to [spawn_ev],
    in the order of the calls; when it is not set, [EVs] is not touched. *)
Theorem step_records_spawned_evs (s : EVCity) obs reward d s' tr :
  step s inp = (Returned obs reward d, s', tr) ->
  EVs s' = EVs s ++ (if save_replay (config s) then spawned_evs tr else []).
Proof.
  intros H. apply step_returned_accounted in H.
  destruct H as (L & Hf & -> & (Ha & Hd & Ht & He & Hc & Hp & Hs & Hn)).
  apply finish_returned in Hf. destruct Hf as (_ & _ & _ & -> & _).
  destruct d; cbn; exact He.
Qed.

End BookkeepingOfStep.

Section ActionSlices.

Context {C : Collaborators}.
Variable inp : Input.

Lemma slice_exact {A} (l : list A) (a n : Z) :
  0 <= a -> 0 <= n -> a + n <= Py.len l ->
  Py.slice l a (a + n) = take (Z.to_nat n) (drop (Z.to_nat a) l).
Proof.
  unfold Py.len, Py.slice, Py.clamp. intros Ha Hn Hlen.
  destruct (Z.ltb_spec a 0); [lia|].
  destruct (Z.ltb_spec (a + n) 0); [lia|].
  f_equal; [lia|f_equal; lia].
Qed.

Lemma sum_nonneg (l : list EV_Charger) :
  Forall (fun c => 0 <= n_ports c) l ->
  0 <= fold_right Z.add 0 (map n_ports l).
Proof. induction 1; cbn; lia. Qed.

Lemma station_body_partitioned total pos c rest L L' :
  total <= Py.len (actions inp) ->
  Forall (fun c => 0 <= n_ports c) (c :: rest) ->
  partitioned inp total pos (c :: rest) L ->
  station_body inp pos c L = (L', None) ->
  partitioned inp total (S pos) rest L'.
Proof.
  unfold partitioned. intros Hlen HF (Hpc & Htot & Hcat & HF2) H.
  apply Forall_cons in HF. destruct HF as [Hn Hrest].
  apply sum_nonneg in Hrest. cbn in Htot.
  assert (Hs : Py.slice (actions inp) (port_counter L)
                        (port_counter L + n_ports c)
               = take (Z.to_nat (n_ports c))
                      (drop (Z.to_nat (port_counter L)) (actions inp)))
    by (apply slice_exact; lia).
  assert (Hl : Py.len (take (Z.to_nat (n_ports c))
                            (drop (Z.to_nat (port_counter L)) (actions inp)))
               = n_ports c).
  { unfold Py.len in *. rewrite length_take, length_drop. lia. }
  body_cases H; cbn [port_counter self trace log with_self];
    rewrite ?slices_app, ?stepped_app; cbn [slices stepped];
    rewrite ?app_nil_r, concat_app, Hcat, Hs; cbn [concat];
    rewrite app_nil_r, take_take_drop;
    (split; [lia|]); (split; [lia|]);
    (split; [f_equal; lia|]);
    (apply Forall2_app; [exact HF2|constructor; [exact Hl|constructor]]).
Qed.

(** X3: the action vector is cut into contiguous slices, one per station
    in station order. On a call of [step] that returns, with no negative
    port count and an action vector as long as the total port count, the
    slices handed to the stations, put end to end, are the action vector,
    and each station is handed as many actions as it has ports. *)
Theorem actions_are_partitioned (s : EVCity) obs reward d s' tr :
  Forall (fun c => 0 <= n_ports c) (charging_stations s) ->
  Py.len (actions inp) = total_ports s ->
  step s inp = (Returned obs reward d, s', tr) ->
  concat (slices tr) = actions inp
  /\ Forall2 (fun c acts => Py.len acts = n_ports c)
             (charging_stations s) (slices tr).
Proof.
  intros Hpos Hlen H.
  destruct (step_covers inp _ _ _ _ _ _ H) as (Hall & _).
  destruct (done s) eqn:Hd.
  { unfold step in H. rewrite Hd in H. discriminate. }
  destruct (step_running inp s _ _ _ Hd H)
    as [(L & e & _ & Ho & _)|[(L1 & L & e & _ & _ & Ho & _)
                              |(L1 & L & Hl & Hp & _ & ->)]];
    try discriminate.
  set (P := fun pos todo L =>
              Forall (fun c => 0 <= n_ports c) todo
              /\ partitioned inp (total_ports s) pos todo L).
  assert (Hbody : forall pos c rest L0 L2,
             P pos (c :: rest) L0 -> station_body inp pos c L0 = (L2, None) ->
             P (S pos) rest L2).
  { intros pos c rest L0 L2 [HF HP] Hb. split.
    - now apply Forall_cons in HF.
    - eapply station_body_partitioned; eauto. lia. }
  assert (H0 : P 0%nat (charging_stations s) (begin s)).
  { split; [exact Hpos|]. unfold partitioned; cbn.
    repeat split; [lia|constructor]. }
  destruct (station_loop_completes inp P Hbody _ _ _ _ H0 Hl)
    as (_ & Hpc & Htot & Hcat & HF2).
  cbn in Htot. rewrite Z.add_0_r in Htot.
  destruct (spawn_profiles_appends _ _ _ Hp) as (ext & Ht & Hext).
  destruct (spawn_profiles_trace _ _ _ Hp) as (Hsp & _).
  inversion Hsp as [[Hsc Hco Hrep Hst]].
  rewrite Ht, slices_app, (slices_spawns _ Hext), app_nil_r.
  rewrite <- Hall, Hst. split; [|exact HF2].
  rewrite Hcat. apply take_ge. unfold Py.len in *. lia.
Qed.

End ActionSlices.

Section PricesOfStep.

Context {C : Collaborators}.
Variable inp : Input.

Lemma station_body_in_order s0 pos c rest L L' :
  in_order s0 pos (c :: rest) L -> station_body inp pos c L = (L', None) ->
  in_order s0 (S pos) rest L'.
Proof.
  unfold in_order. intros (Hd & Ht & Hc) H.
  apply drop_head in Hd. destruct Hd as [_ Hd].
  body_cases H; cbn [self trace log with_self] in *;
    repeat match goal with
           | |- context [if ?b then _ else _] => destruct b
           end; cbn in *; auto.
Qed.

Lemma station_body_priced s0 pos c rest L L' r :
  in_order s0 pos (c :: rest) L -> priced s0 (trace L) ->
  station_body inp pos c L = (L', r) -> priced s0 (trace L').
Proof.
  unfold in_order, priced. intros (Hd & Ht & Hc) HP H.
  apply drop_head in Hd. destruct Hd as [Hd _].
  body_cases H; cbn [self trace log with_self] in *; auto;
    repeat (apply Forall_app; split; auto);
    repeat (constructor; auto);
    rewrite <- ?Hc, <- ?Ht; auto.
Qed.

Lemma priced_spawns s0 tr ext :
  priced s0 tr -> Forall is_spawn ext -> priced s0 (tr ++ ext).
Proof.
  unfold priced. intros HP HS. apply Forall_app. split; [exact HP|].
  eapply Forall_impl; [exact HS|]. intros [] He; [destruct He|exact I].
Qed.

(** X4: which station is stepped with which prices. Every call of
    [cs.step] that a call of [step] makes, however it ends, is made on the
    station at the next position of the station list as [step] found it,
    with the charge and the discharge price at that station's id and at
    the step counter as it was before the call (the counter is advanced
    only afterwards). *)
Theorem stations_get_current_prices (s : EVCity) o s' tr :
  step s inp = (o, s', tr) ->
  forall pos before acts cp dp after ret,
    In (CsStep pos before acts cp dp after ret) tr ->
    charging_stations s !! pos = Some before
    /\ Py.index2 (charge_prices (config s)) (id before) (current_step s)
       = Some cp
    /\ Py.index2 (discharge_prices (config s)) (id before) (current_step s)
       = Some dp
    /\ cs_step before acts cp dp = (after, ret).
Proof.
  intros H pos before acts cp dp after ret Hin.
  pose proof (step_faithful inp _ _ _ _ H) as Hfaith.
  rewrite Forall_forall in Hfaith.
  pose proof Hin as Hin'. apply list_elem_of_In in Hin'.
  specialize (Hfaith _ Hin'). cbn in Hfaith.
  assert (HP : priced s tr).
  { destruct (done s) eqn:Hd.
    { unfold step in H. rewrite Hd in H. inversion H; subst. constructor. }
    set (P := fun pos todo L => in_order s pos todo L /\ priced s (trace L)).
    assert (Hbody : forall pos c rest L0 L2,
               P pos (c :: rest) L0 ->
               station_body inp pos c L0 = (L2, None) -> P (S pos) rest L2).
    { intros p c rest L0 L2 [HI HPr] Hb. split.
      - eapply station_body_in_order; eauto.
      - eapply station_body_priced; eauto. }
    assert (H0 : P 0%nat (charging_stations s) (begin s)).
    { split; [unfold in_order; cbn; auto|constructor]. }
    destruct (step_running inp s _ _ _ Hd H)
      as [(L & e & Hl & _ & _ & ->)|[(L1 & L & e & Hl & Hp & _ & _ & ->)
                                     |(L1 & L & Hl & Hp & _ & ->)]].
    - destruct (station_loop_raises inp P Hbody _ _ _ _ _ H0 Hl)
        as (p & c & rest & L0 & [HI HPr] & Hb).
      eapply station_body_priced; eauto.
    - destruct (station_loop_completes inp P Hbody _ _ _ _ H0 Hl) as [_ HPr].
      destruct (spawn_profiles_appends _ _ _ Hp) as (ext & -> & Hext).
      now apply priced_spawns.
    - destruct (station_loop_completes inp P Hbody _ _ _ _ H0 Hl) as [_ HPr].
      destruct (spawn_profiles_appends _ _ _ Hp) as (ext & -> & Hext).
      now apply priced_spawns. }
  unfold priced in HP. rewrite Forall_forall in HP.
  specialize (HP _ Hin'). cbn in HP. intuition.
Qed.

End PricesOfStep.

Section Outcomes.

Context {C : Collaborators}.
Variable inp : Input.

Lemma finish_grid L o s' :
  simulate_grid (config (self L)) = true -> finish L = (o, s') ->
  o = Raised (Engine NotImplementedError_grid) /\ s' = advance (self L).
Proof.
  unfold finish. cbn [advance _step_date config set_current_evs_parked
                      set_sim_date set_current_step].
  intros ->. intros H; inversion H; auto.
Qed.

Lemma finish_no_grid L e s' :
  finish L = (Raised e, s') -> simulate_grid (config (self L)) = true.
Proof.
  unfold finish. cbn [advance _step_date config set_current_evs_parked
                      set_sim_date set_current_step].
  destruct (simulate_grid _); [reflexivity|].
  destruct (episode_is_done _ _); discriminate.
Qed.

(** X5: the grid branch. With [simulate_grid] set, no call of [step]
    returns: it ends in an exception. When that exception is the
    [NotImplementedError] of the grid branch, the step counter and the
    simulated date have already been advanced, and [done] is not set. *)
Theorem grid_step_never_returns (s : EVCity) o s' tr :
  simulate_grid (config s) = true ->
  step s inp = (o, s', tr) ->
  exists e, o = Raised e
    /\ (e = Engine NotImplementedError_grid ->
        current_step s' = current_step s + 1
        /\ sim_date s' = sim_date s + timescale (config s)
        /\ done s' = false).
Proof.
  intros Hg H. destruct (done s) eqn:Hd.
  { unfold step in H. rewrite Hd in H. inversion H; subst.
    eexists. split; [reflexivity|]. discriminate. }
  destruct (step_running inp s _ _ _ Hd H)
    as [(L & e & Hl & -> & -> & _)|[(L1 & L & e & Hl & Hp & -> & -> & _)
                                    |(L1 & L & Hl & Hp & Hf & _)]].
  - exists e. split; [reflexivity|].
    intros ->. exfalso.
    assert (Hcases : forall pos c L0 L1,
               station_body inp pos c L0
               <> (L1, Some (Engine NotImplementedError_grid))).
    { intros pos c L0 L2 Hb. body_cases Hb. }
    destruct (station_loop_raises inp (fun _ _ _ => True)
                (fun _ _ _ _ _ _ _ => I) _ _ _ _ _ I Hl)
      as (pos & c & rest & L0 & _ & Hb).
    exact (Hcases _ _ _ _ Hb).
  - exists e. split; [reflexivity|].
    intros ->. apply spawn_profiles_errors in Hp.
    destruct Hp as [Hp|[x Hp]]; discriminate.
  - pose proof (station_loop_frame inp _ _ _ _ _ Hl)
      as (Hc & Hs & Hdn & Hdt & _).
    pose proof (spawn_profiles_frame _ _ _ Hp) as (Hc' & Hs' & Hdn' & Hdt' & _).
    cbn in Hc, Hs, Hdn, Hdt.
    symmetry in Hf. apply finish_grid in Hf; [|congruence].
    destruct Hf as [-> ->].
    exists (Engine NotImplementedError_grid). split; [reflexivity|].
    intros _. cbn.
    rewrite Hs', Hs, Hdt', Hdt, Hc', Hc, Hdn', Hdn. auto.
Qed.

(** One iteration of the station loop raises one of five exceptions, and
    the trace ends with the call that failed. *)
Lemma station_body_errors pos c L L' e :
  station_body inp pos c L = (L', Some e) ->
  match e with
  | Engine IndexError_prices | Engine IndexError_transformers => True
  | Engine ValueError_max_stay =>
      ev_profiles (self L) = None
      /\ simulation_length (config (self L)) < max_stay_of_ev
  | In_cs_step x =>
      exists p before acts cp dp after,
        trace L' = trace L ++ [CsStep p before acts cp dp after (inl x)]
  | In_spawn_ev x =>
      ev_profiles (self L) = None
      /\ exists tr0 p before ev after,
           trace L' = tr0 ++ [SpawnEv p before ev after (Some x)]
  | Engine _ => False
  end.
Proof.
  intros H.
  body_cases H; cbn [self trace log with_self] in *; cbn in *; auto.
  - eauto 10.
  - split; [assumption|unfold max_stay_of_ev in *; lia].
  - split; [assumption|]. eexists _, _, _, _, _. reflexivity.
Qed.

Lemma profile_loop_errors_trace todo i L L' e :
  profile_loop i todo L = (L', Some e) ->
  e = Engine IndexError_charging_stations
  \/ exists x tr0 p before ev after,
       e = In_spawn_ev x
       /\ trace L' = tr0 ++ [SpawnEv p before ev after (Some x)].
Proof.
  revert i L. induction todo as [|ev rest IH]; intros i L H; simpl in H.
  - discriminate.
  - destruct (time_of_arrival ev =? current_step (self L) + 1).
    + destruct (Py.pos _ _) as [k|]; [|inversion H; subst; auto].
      destruct (_ !! k) as [c|]; [|inversion H; subst; auto].
      destruct (spawn_ev c (ev_reset ev)) as [c' [x|]].
      * inversion H; subst. right. cbn. eauto 10.
      * eauto.
    + destruct (time_of_arrival ev >? current_step (self L) + 1).
      * discriminate.
      * eauto.
Qed.

(** X6: the exceptions of [step]. On a running engine a call of [step]
    ends in the assertion error never; in the maximum-stay error only in
    random mode with a simulation length below 15; in an index error on
    the station list only in profile mode; in the [NotImplementedError]
    only with [simulate_grid] set; and when the exception comes out of
    [cs.step] or [cs.spawn_ev], that failed call is the last one made. *)
Theorem step_exceptions (s : EVCity) e s' tr :
  done s = false ->
  step s inp = (Raised e, s', tr) ->
  match e with
  | Engine AssertionError_episode_done => False
  | Engine IndexError_prices | Engine IndexError_transformers => True
  | Engine ValueError_max_stay =>
      ev_profiles s = None /\ simulation_length (config s) < 15
  | Engine IndexError_charging_stations => ev_profiles s <> None
  | Engine NotImplementedError_grid => simulate_grid (config s) = true
  | In_cs_step x =>
      exists tr0 p before acts cp dp after,
        tr = tr0 ++ [CsStep p before acts cp dp after (inl x)]
  | In_spawn_ev x =>
      exists tr0 p before ev after,
        tr = tr0 ++ [SpawnEv p before ev after (Some x)]
  end.
Proof.
  intros Hd H.
  destruct (step_running inp s _ _ _ Hd H)
    as [(L & e' & Hl & He & -> & ->)|[(L1 & L & e' & Hl & Hp & He & -> & ->)
                                      |(L1 & L & Hl & Hp & Hf & _)]].
  - inversion He; subst e'; clear He.
    set (P := fun (pos : nat) (todo : list EV_Charger) (L : Loop) =>
                same_frame s (self L) /\ ev_profiles (self L) = ev_profiles s).
    assert (Hbody : forall pos c rest L0 L2,
               P pos (c :: rest) L0 ->
               station_body inp pos c L0 = (L2, None) -> P (S pos) rest L2).
    { intros pos c rest L0 L2 [HF HE] Hb. split.
      - eapply same_frame_trans; [exact HF|].
        eapply station_body_frame; eauto.
      - rewrite <- HE. clear - Hb. body_cases Hb; reflexivity. }
    assert (H0 : P 0%nat (charging_stations s) (begin s)).
    { split; [apply begin_frame|reflexivity]. }
    destruct (station_loop_raises inp P Hbody _ _ _ _ _ H0 Hl)
      as (pos & c & rest & L0 & [(Hc & _) HE] & Hb).
    apply station_body_errors in Hb.
    destruct e as [[]|x|x]; auto.
    + rewrite <- HE, <- Hc. unfold max_stay_of_ev in Hb. exact Hb.
    + destruct Hb as (p & before & acts & cp & dp & after & Ht). eauto 10.
    + destruct Hb as (_ & Hb). exact Hb.
  - inversion He; subst e'; clear He.
    pose proof (station_loop_ev_profiles inp _ _ _ _ _ Hl) as HE. cbn in HE.
    unfold spawn_profiles in Hp.
    destruct (ev_profiles (self L1)) as [profiles|] eqn:Hpr; [|discriminate].
    apply profile_loop_errors_trace in Hp.
    destruct Hp as [->|(x & tr0 & p & before & ev & after & -> & Ht)].
    + congruence.
    + eauto 10.
  - symmetry in Hf. pose proof (finish_errors _ _ _ Hf) as ->.
    apply finish_no_grid in Hf.
    pose proof (station_loop_frame inp _ _ _ _ _ Hl) as (Hc & _).
    pose proof (spawn_profiles_frame _ _ _ Hp) as (Hc' & _).
    cbn in Hc. congruence.
Qed.

End Outcomes.

Section Invariants.

Context {C : Collaborators}.
Variable inp : Input.







Lemma step_done (s : EVCity) :
  done s = true ->
  step s inp = (Raised (Engine AssertionError_episode_done), s, []).
Proof. intros Hd. unfold step. now rewrite Hd. Qed.

End Invariants.

Section Episodes.

Context {C : Collaborators}.

Lemma run_when_done (inps : list Input) (s : EVCity) :
  done s = true ->
  run s inps
  = (map (fun _ => Raised (Engine AssertionError_episode_done)) inps, s).
Proof.
  intros Hd. induction inps as [|inp rest IH]; [reflexivity|].
  cbn [run]. rewrite (step_done inp s Hd), IH. reflexivity.
Qed.

(** X8: the end of an episode is final for [step]. Once a call has
    returned [done = true], every further call of [step], with whatever
    arguments, ends in the assertion error and the engine stays exactly as
    that call left it. *)
Theorem done_is_final (s : EVCity) (inp : Input) obs reward s' tr
    (inps : list Input) :
  step s inp = (Returned obs reward true, s', tr) ->
  run s' inps
  = (map (fun _ => Raised (Engine AssertionError_episode_done)) inps, s').
Proof.
  intros H. apply run_when_done.
  now destruct (step_returned_state _ _ _ _ _ _ _ H) as (_ & _ & Hd & _).
Qed.

(** X9: calls that all return, made one after the other, advance the step
    counter by their number and the simulated date by as many timescales;
    the configuration is the same at the end. *)
Theorem run_advances_clock (inps : list Input) :
  forall (s : EVCity) outs s',
    run s inps = (outs, s') ->
    forallb returned outs = true ->
    current_step s' = current_step s + Py.len inps
    /\ sim_date s' = sim_date s + Py.len inps * timescale (config s)
    /\ config s' = config s.
Proof.
  unfold Py.len.
  induction inps as [|inp rest IH]; intros s outs s' Hrun Hall.
  - inversion Hrun; subst. cbn. repeat split; lia.
  - simpl in Hrun.
    destruct (step s inp) as [[o s1] tr] eqn:Hstep.
    destruct (run s1 rest) as [os s2] eqn:Hrest.
    inversion Hrun; subst outs s2; clear Hrun.
    simpl in Hall. apply andb_true_iff in Hall. destruct Hall as [Ho Hos].
    destruct o as [obs reward d|]; [|discriminate].
    destruct (IH _ _ _ Hrest Hos) as (Hs & Hd & Hc).
    destruct (step_returned_state _ _ _ _ _ _ _ Hstep) as (Hc1 & Hs1 & _).
    destruct (step_returned_accounted inp _ _ _ _ _ _ Hstep)
      as (L & Hf & _ & (_ & _ & _ & _ & Hc0 & _ & Hdt & _)).
    apply finish_returned in Hf. destruct Hf as (_ & _ & _ & Hs' & _).
    assert (Hd1 : sim_date s1 = sim_date s + timescale (config s)).
    { rewrite Hs'. destruct d; cbn; now rewrite Hdt, Hc0. }
    rewrite Hs, Hd, Hc, Hs1, Hd1, Hc1. cbn [length].
    repeat split; lia.
Qed.

End Episodes.

Section ProfileMode.

Context {C : Collaborators}.

Lemma station_body_profile_mode inp pos c L L' r :
  ev_profiles (self L) <> None ->
  station_body inp pos c L = (L', r) ->
  spawns (trace L') = spawns (trace L)
  /\ ev_profiles (self L') = ev_profiles (self L).
Proof.
  intros Hp H.
  body_cases H; cbn [self trace log with_self] in *; cbn in *;
    rewrite ?spawns_app; cbn [spawns]; rewrite ?app_nil_r;
    first [split; reflexivity|congruence].
Qed.

Lemma station_loop_profile_mode inp todo pos L L' r :
  ev_profiles (self L) <> None ->
  station_loop inp pos todo L = (L', r) ->
  spawns (trace L') = spawns (trace L)
  /\ ev_profiles (self L') = ev_profiles (self L).
Proof.
  revert pos L. induction todo as [|c rest IH]; intros pos L Hp H; simpl in H.
  - inversion H; subst. auto.
  - destruct (station_body inp pos c L) as [L1 [e|]] eqn:Hb.
    + inversion H; subst. eapply station_body_profile_mode; eauto.
    + destruct (station_body_profile_mode _ _ _ _ _ _ Hp Hb) as [Hs He].
      assert (Hp1 : ev_profiles (self L1) <> None) by (rewrite He; exact Hp).
      destruct (IH _ _ Hp1 H) as [Hs' He']. split; congruence.
Qed.

(** A scan that ends normally has passed to [spawn_ev] the due EVs, each
    after its [reset], at the station its location names. *)
Lemma profile_loop_due todo i L L' :
  profile_loop i todo L = (L', None) ->
  exists ext,
    spawns (trace L') = spawns (trace L) ++ ext
    /\ map (fun x : nat * EV_Charger * EV => snd x) ext
       = map ev_reset (due (current_step (self L)) todo)
    /\ Forall (fun x : nat * EV_Charger * EV =>
                 Py.pos (length (charging_stations (self L)))
                        (location (snd x))
                 = Some (spawn_position x)) ext.
Proof.
  revert i L. induction todo as [|ev rest IH]; intros i L H; simpl in H.
  - inversion H; subst. exists []. rewrite app_nil_r. auto.
  - simpl due.
    destruct (time_of_arrival ev =? current_step (self L) + 1).
    + destruct (Py.pos _ _) as [k|] eqn:Hk; [|discriminate].
      destruct (_ !! k) as [c|]; [|discriminate].
      destruct (spawn_ev c (ev_reset ev)) as [c' [e|]]; [discriminate|].
      apply IH in H. cbn [self trace log with_self] in H.
      destruct H as (ext & Hsp & Hev & HF).
      rewrite spawns_app in Hsp. cbn [spawns] in Hsp.
      exists ((k, c, ev_reset ev) :: ext). split; [|split].
      * rewrite Hsp, <- app_assoc. reflexivity.
      * cbn [map snd]. rewrite Hev. f_equal.
        destruct (save_replay _); reflexivity.
      * constructor; [exact Hk|].
        eapply Forall_impl; [exact HF|]. intros x Hx.
        destruct (save_replay _); cbn in Hx;
          rewrite length_insert in Hx; exact Hx.
    + destruct (time_of_arrival ev >? current_step (self L) + 1).
      * inversion H; subst. exists []. rewrite app_nil_r. auto.
      * apply IH in H. exact H.
Qed.

End ProfileMode.

Section ProfileModeOfStep.

Context {C : Collaborators}.

(** X10: what a scan of the profile spawns. In profile mode a call of
    [step] at step [t] that returns has passed to [spawn_ev], in profile
    order and each after its [reset], exactly the EVs of
    [ev_profiles[total_evs_spawned:]] that arrive at [t + 1] and come
    before the first EV arriving later than [t + 1] (EVs arriving earlier
    are passed over). Each is spawned at the station its location names,
    and the station loop itself spawns none. *)
Theorem profile_mode_spawns (s : EVCity) (inp : Input) profile
    obs reward d s' tr :
  ev_profiles s = Some profile ->
  step s inp = (Returned obs reward d, s', tr) ->
  spawned_evs tr
  = map ev_reset
        (due (current_step s) (Py.slice_from profile (total_evs_spawned s)))
  /\ Forall (fun x : nat * EV_Charger * EV =>
               Py.pos (length (charging_stations s)) (location (snd x))
               = Some (spawn_position x))
            (spawns tr).
Proof.
  intros Hpr H. destruct (done s) eqn:Hd.
  { unfold step in H. rewrite Hd in H. discriminate. }
  destruct (step_running inp s _ _ _ Hd H)
    as [(L & e & _ & Ho & _)|[(L1 & L & e & _ & _ & Ho & _)
                              |(L1 & L & Hl & Hp & _ & ->)]];
    try discriminate.
  assert (Hsome : ev_profiles (self (begin s)) <> None)
    by (cbn; congruence).
  destruct (station_loop_profile_mode _ _ _ _ _ _ Hsome Hl) as [Hsp Hev].
  cbn in Hsp, Hev.
  pose proof (station_loop_frame inp _ _ _ _ _ Hl)
    as (_ & Hs & _ & _ & _ & _ & Hn & _).
  cbn in Hs, Hn.
  pose proof (station_loop_completes inp (fun _ _ L => accounted s L)
                (fun pos c rest L L' => station_body_accounted inp s pos c L L')
                _ _ _ _ (begin_accounted s) Hl) as (_ & _ & Ht & _).
  rewrite Hsp in Ht. unfold Py.len in Ht. cbn in Ht.
  rewrite Z.add_0_r in Ht.
  unfold spawn_profiles in Hp. rewrite Hev, Hpr, Ht in Hp.
  apply profile_loop_due in Hp. destruct Hp as (ext & Hx & Hm & HF).
  rewrite Hsp in Hx. cbn in Hx. unfold spawned_evs.
  rewrite Hx, Hm, Hs. split; [reflexivity|].
  now rewrite Hn in HF.
Qed.

Lemma station_body_ignores_draws acts r1 r2 pos c L :
  ev_profiles (self L) <> None ->
  station_body (mkInput acts r1) pos c L
  = station_body (mkInput acts r2) pos c L.
Proof.
  intros Hp. unfold station_body. cbn [actions].
  destruct (Py.index2 _ _ _); [|reflexivity].
  destruct (Py.index2 _ _ _); [|reflexivity].
  destruct (cs_step _ _ _ _) as [c' [e|[cost us]]]; [reflexivity|].
  cbn [self trace log with_self].
  destruct (Py.pos _ _); [|reflexivity].
  unfold spawn_random. cbn [self]. cbn.
  destruct (ev_profiles (self L)); [reflexivity|congruence].
Qed.

Lemma station_loop_ignores_draws acts r1 r2 todo pos L :
  ev_profiles (self L) <> None ->
  station_loop (mkInput acts r1) pos todo L
  = station_loop (mkInput acts r2) pos todo L.
Proof.
  revert pos L. induction todo as [|c rest IH]; intros pos L Hp;
    [reflexivity|].
  cbn [station_loop]. rewrite (station_body_ignores_draws acts r1 r2 _ _ _ Hp).
  destruct (station_body (mkInput acts r2) pos c L) as [L1 [e|]] eqn:Hb;
    [reflexivity|].
  apply IH.
  destruct (station_body_profile_mode _ _ _ _ _ _ Hp Hb) as [_ He].
  now rewrite He.
Qed.

(** X11: in profile mode the random generator plays no part. Two calls
    of [step] on the same engine with the same action vector end the same
    way, leave the same engine and make the same calls, whatever the
    generator would have drawn. *)
Theorem profile_mode_ignores_draws (s : EVCity) acts r1 r2 :
  ev_profiles s <> None ->
  step s (mkInput acts r1) = step s (mkInput acts r2).
Proof.
  intros Hp. unfold step. destruct (done s); [reflexivity|].
  rewrite (station_loop_ignores_draws acts r1 r2); [reflexivity|].
  cbn. exact Hp.
Qed.

Lemma slice_from_beyond {A} (l : list A) (a : Z) :
  Py.len l <= a -> Py.slice_from l a = [].
Proof.
  unfold Py.len, Py.slice_from, Py.clamp. intros H.
  destruct (Z.ltb_spec a 0); [lia|].
  apply drop_ge. lia.
Qed.

(** X12: [reset] does not rewind the profile. It leaves
    [total_evs_spawned], which is where the scan of the profile starts,
    as it is; so in profile mode, once as many EVs have been spawned as
    the profile holds, a call of [step] after [reset] calls [spawn_ev] for
    none of them, however that call ends. *)
Theorem reset_keeps_profile_cursor (s : EVCity) (inp : Input) profile
    o s' tr :
  ev_profiles s = Some profile ->
  Py.len profile <= total_evs_spawned s ->
  step (snd (reset s)) inp = (o, s', tr) ->
  total_evs_spawned (snd (reset s)) = total_evs_spawned s
  /\ spawns tr = [].
Proof.
  intros Hpr Hlen H. split; [reflexivity|].
  set (s1 := snd (reset s)) in *.
  assert (Hpr1 : ev_profiles s1 = Some profile) by exact Hpr.
  assert (Ht1 : total_evs_spawned s1 = total_evs_spawned s) by reflexivity.
  clearbody s1.
  destruct (done s1) eqn:Hd.
  { unfold step in H. rewrite Hd in H. inversion H; subst. reflexivity. }
  assert (Hsome : ev_profiles (self (begin s1)) <> None)
    by (cbn; congruence).
  assert (Hscan : forall L1 L r,
             station_loop inp 0 (charging_stations s1) (begin s1) = (L1, None) ->
             spawn_profiles L1 = (L, r) -> spawns (trace L) = []).
  { intros L1 L r Hl Hp.
    destruct (station_loop_profile_mode _ _ _ _ _ _ Hsome Hl) as [Hsp Hev].
    cbn in Hsp, Hev.
    pose proof (station_loop_completes inp (fun _ _ L => accounted s1 L)
                  (fun pos c rest L L' =>
                     station_body_accounted inp s1 pos c L L')
                  _ _ _ _ (begin_accounted s1) Hl) as (_ & _ & Ht & _).
    rewrite Hsp in Ht. unfold Py.len in Ht. cbn in Ht.
    rewrite Z.add_0_r in Ht.
    unfold spawn_profiles in Hp. rewrite Hev, Hpr1, Ht in Hp.
    rewrite slice_from_beyond in Hp by lia.
    cbn in Hp. inversion Hp; subst. exact Hsp. }
  destruct (step_running inp s1 _ _ _ Hd H)
    as [(L & e & Hl & _ & _ & ->)|[(L1 & L & e & Hl & Hp & _ & _ & ->)
                                   |(L1 & L & Hl & Hp & _ & ->)]].
  - now destruct (station_loop_profile_mode _ _ _ _ _ _ Hsome Hl) as [Hsp _].
  - eapply Hscan; eauto.
  - eapply Hscan; eauto.
Qed.

End ProfileModeOfStep.

Section SpawnDecisions.

Context {C : Collaborators}.
Variable inp : Input.
Variable s0 : EVCity.

Lemma decision_snoc (after : list EV_Charger) pos c c' :
  length after = pos -> charging_stations s0 !! pos = Some c ->
  List.filter (spawn_decision inp s0 (after ++ [c'])) (seq 0 (S pos))
  = List.filter (spawn_decision inp s0 after) (seq 0 pos)
    ++ (if spawn_test inp s0 pos c c' then [pos] else []).
Proof.
  intros Hlen Hc. rewrite seq_S, List.filter_app. cbn [List.filter Nat.add].
  f_equal.
  - apply filter_ext_in. intros p Hp. apply in_seq in Hp.
    unfold spawn_decision. rewrite lookup_app_l by lia. reflexivity.
  - unfold spawn_decision at 1. rewrite Hc.
    rewrite <- Hlen, list_lookup_middle by reflexivity. rewrite Hlen.
    reflexivity.
Qed.

Lemma station_body_decided pos c rest L L' :
  decided inp s0 pos (c :: rest) L ->
  station_body inp pos c L = (L', None) ->
  decided inp s0 (S pos) rest L'.
Proof.
  intros (HR & Hlen & Hdec) H.
  split; [eapply station_body_random_mode; eauto|].
  destruct HR as (Hd & Ht & Hc & He & Hp).
  apply drop_head in Hd. destruct Hd as [Hd _].
  body_cases H; cbn [self trace log with_self] in *; cbn in * |-;
    rewrite ?reports_app, ?spawns_app; cbn [reports spawns];
    rewrite ?app_nil_r, ?length_app, ?map_app;
    cbn [length map spawn_position fst];
    (split; [lia|]);
    rewrite (decision_snoc _ _ _ _ Hlen Hd), <- Hdec;
    try congruence;
    unfold spawn_test; rewrite <- ?He, <- ?Ht, <- ?Hc;
    repeat match goal with
           | Hb : _ = true |- _ => rewrite Hb; clear Hb
           | Hb : _ = false |- _ => rewrite Hb; clear Hb
           end; cbn; rewrite ?andb_false_r, ?app_nil_r; reflexivity.
Qed.

End SpawnDecisions.

Section SpawnDecisionsOfStep.

Context {C : Collaborators}.
Variable inp : Input.

(** X13: where random mode spawns. On a call of [step] that returns, with
    no EV profile loaded, [spawn_ev] is called at a station if and only if
    the end-of-simulation policy allows spawning at this step, the
    station, as its own [step] left it, has fewer EVs connected than the
    ports it had when the loop reached it, and the draw
    [np.random.rand()] for it is below the spawn rate 0.8; the calls are
    made in station order. *)
Theorem random_mode_spawn_decisions (s : EVCity) obs reward d s' tr :
  ev_profiles s = None ->
  step s inp = (Returned obs reward d, s', tr) ->
  map spawn_position (spawns tr)
  = List.filter (spawn_decision inp s (reports tr))
                (seq 0 (length (charging_stations s))).
Proof.
  intros Hpr H. destruct (done s) eqn:Hd.
  { unfold step in H. rewrite Hd in H. discriminate. }
  destruct (step_running inp s _ _ _ Hd H)
    as [(L & e & _ & Ho & _)|[(L1 & L & e & _ & _ & Ho & _)
                              |(L1 & L & Hl & Hp & _ & ->)]];
    try discriminate.
  assert (H0 : decided inp s 0 (charging_stations s) (begin s)).
  { split; [unfold random_mode; cbn; auto|]. split; reflexivity. }
  destruct (station_loop_completes inp (decided inp s)
              (station_body_decided inp s) _ _ _ _ H0 Hl)
    as ((_ & _ & _ & _ & Hev) & Hlen & Hdec).
  unfold spawn_profiles in Hp. rewrite Hev in Hp.
  inversion Hp; subst L. exact Hdec.
Qed.

End SpawnDecisionsOfStep.

Section PriceBounds.

Context {C : Collaborators}.
Variable inp : Input.

Lemma pos_in_range (len : nat) (i : Z) :
  0 <= i < Z.of_nat len -> Py.pos len i = Some (Z.to_nat i).
Proof.
  intros H. unfold Py.pos.
  destruct (Z.leb_spec 0 i); destruct (Z.ltb_spec i (Z.of_nat len));
    try lia. reflexivity.
Qed.

Lemma index2_in_range {A} (m : list (list A)) rows cols (i j : Z) :
  shaped rows cols m ->
  0 <= i < Z.of_nat rows -> 0 <= j < Z.of_nat cols ->
  exists v, Py.index2 m i j = Some v.
Proof.
  intros [Hr Hc] Hi Hj. unfold Py.index2, Py.index.
  rewrite Hr, (pos_in_range rows i Hi).
  destruct (lookup_lt_is_Some_2 m (Z.to_nat i)) as [row Hrow]; [lia|].
  rewrite Hrow.
  rewrite Forall_forall in Hc.
  assert (Hlen : length row = cols)
    by (apply Hc; eapply list_elem_of_lookup_2; eauto).
  rewrite Hlen, (pos_in_range cols j Hj).
  destruct (lookup_lt_is_Some_2 row (Z.to_nat j)) as [v Hv]; [lia|].
  eauto.
Qed.

Lemma station_body_price_error pos c L L' :
  station_body inp pos c L = (L', Some (Engine IndexError_prices)) ->
  Py.index2 (charge_prices (config (self L))) (id c) (current_step (self L))
  = None
  \/ Py.index2 (discharge_prices (config (self L))) (id c)
               (current_step (self L)) = None.
Proof. intros H. body_cases H; auto. Qed.

(** X14: the price lookup stays within the matrices. When both price
    matrices have one row per station id and one column per step of the
    simulation, every station's id is a row and the step counter is below
    the simulation length, a call of [step] does not end in the index
    error of the price lookup. *)
Theorem prices_cover_the_episode (s : EVCity) rows e s' tr :
  shaped rows (Z.to_nat (simulation_length (config s)))
         (charge_prices (config s)) ->
  shaped rows (Z.to_nat (simulation_length (config s)))
         (discharge_prices (config s)) ->
  Forall (fun c => 0 <= id c < Z.of_nat rows) (charging_stations s) ->
  0 <= current_step s < simulation_length (config s) ->
  step s inp = (Raised e, s', tr) ->
  e <> Engine IndexError_prices.
Proof.
  intros Hcp Hdp Hids Hstep H ->.
  destruct (done s) eqn:Hd.
  { unfold step in H. rewrite Hd in H. discriminate. }
  destruct (step_running inp s _ _ _ Hd H)
    as [(L & e & Hl & He & _)|[(L1 & L & e & Hl & Hp & He & _)
                               |(L1 & L & Hl & Hp & Hf & _)]].
  - inversion He; subst e; clear He.
    assert (H0 : in_order s 0 (charging_stations s) (begin s))
      by (unfold in_order; cbn; auto).
    destruct (station_loop_raises inp (in_order s)
                (station_body_in_order inp s) _ _ _ _ _ H0 Hl)
      as (pos & c & rest & L0 & (Hdrop & Ht & Hc) & Hb).
    apply drop_head in Hdrop. destruct Hdrop as [Hdrop _].
    rewrite Forall_forall in Hids.
    assert (Hid : 0 <= id c < Z.of_nat rows)
      by (apply Hids; eapply list_elem_of_lookup_2; eauto).
    apply station_body_price_error in Hb. rewrite Hc, Ht in Hb.
    destruct (index2_in_range _ _ _ (id c) (current_step s) Hcp Hid)
      as [v Hv]; [lia|].
    destruct (index2_in_range _ _ _ (id c) (current_step s) Hdp Hid)
      as [w Hw]; [lia|].
    destruct Hb; congruence.
  - inversion He; subst e; clear He.
    apply spawn_profiles_errors in Hp. destruct Hp as [Hp|[x Hp]]; discriminate.
  - symmetry in Hf. apply finish_errors in Hf. discriminate.
Qed.

End PriceBounds.

Section Loaders.

Lemma Qabs_sign (x : Q) : (-1 * Qabs x <= 0)%Q /\ (0 <= Qabs x)%Q.
Proof.
  pose proof (Qabs_nonneg x) as H. split; [|exact H].
  destruct (Qabs x) as [n d]. unfold Qle in *. cbn in *. lia.
Qed.

Lemma shaped_map {A B} (f : A -> B) rows cols (m : list (list A)) :
  shaped rows cols m -> shaped rows cols (map (map f) m).
Proof.
  intros [Hr Hc]. split; [now rewrite length_map|].
  apply Forall_forall. intros row Hin. apply list_elem_of_In in Hin.
  apply in_map_iff in Hin. destruct Hin as (r0 & <- & Hin).
  rewrite length_map. rewrite Forall_forall in Hc. apply Hc.
  now apply list_elem_of_In.
Qed.

(** X15: generated prices. Unless the prices are loaded from a replay,
    [_load_electricity_prices] gives a charge price that is zero or
    negative and a discharge price that is zero or positive at every
    station and step, in matrices of the shape of the random draws. *)
Theorem generated_prices_signs (replay : option Replay)
    (load_prices_from_replay : bool)
    (normal_charge normal_discharge : list (list Q)) rows cols :
  replay = None \/ load_prices_from_replay = false ->
  shaped rows cols normal_charge -> shaped rows cols normal_discharge ->
  let '(charge, discharge) :=
    _load_electricity_prices replay load_prices_from_replay
                             normal_charge normal_discharge in
  shaped rows cols charge /\ shaped rows cols discharge
  /\ Forall (Forall (fun p => (p <= 0)%Q)) charge
  /\ Forall (Forall (fun p => (0 <= p)%Q)) discharge.
Proof.
  intros Hgen Hc Hd.
  assert (Heq : _load_electricity_prices replay load_prices_from_replay
                  normal_charge normal_discharge
                = (map (map (fun x => (-1 * Qabs x)%Q)) normal_charge,
                   map (map Qabs) normal_discharge)).
  { unfold _load_electricity_prices.
    destruct Hgen as [->| ->]; [reflexivity|]. now destruct replay. }
  rewrite Heq. split; [now apply shaped_map|]. split; [now apply shaped_map|].
  split; apply Forall_forall; intros row Hin; apply list_elem_of_In in Hin;
    apply in_map_iff in Hin; destruct Hin as (r0 & <- & _);
    apply Forall_forall; intros p Hp; apply list_elem_of_In in Hp;
    apply in_map_iff in Hp; destruct Hp as (x & <- & _);
    apply Qabs_sign.
Qed.

Lemma lookup_is_nth_error {A} (l : list A) (i : nat) :
  l !! i = nth_error l i.
Proof.
  revert i. induction l as [|x l IH]; intros [|i]; cbn; auto.
Qed.

Lemma where_equal_spec (i : Z) (l : list Z) (from : nat) (p : Z) :
  In p (where_equal i from l)
  <-> exists k, p = Z.of_nat (from + k) /\ l !! k = Some i.
Proof.
  revert from. induction l as [|t l IH]; intros from; cbn [where_equal].
  - split; [intros []|intros (k & _ & Hk); discriminate].
  - destruct (Z.eqb_spec t i) as [->|Hne].
    + cbn [In]. rewrite IH. split.
      * intros [<-|(k & -> & Hk)].
        -- exists 0%nat. split; [f_equal; lia|reflexivity].
        -- exists (S k). split; [f_equal; lia|exact Hk].
      * intros ([|k] & -> & Hk).
        -- left. f_equal. lia.
        -- right. exists k. split; [f_equal; lia|exact Hk].
    + rewrite IH. split.
      * intros (k & -> & Hk). exists (S k). split; [f_equal; lia|exact Hk].
      * intros ([|k] & -> & Hk).
        -- cbn in Hk. congruence.
        -- exists k. split; [f_equal; lia|exact Hk].
Qed.

Lemma where_equal_sorted (i : Z) (l : list Z) (from : nat) :
  StronglySorted Z.lt (where_equal i from l).
Proof.
  revert from. induction l as [|t l IH]; intros from; cbn [where_equal].
  - constructor.
  - destruct (t =? i); [|apply IH].
    constructor; [apply IH|].
    apply List.Forall_forall. intros p Hp. apply where_equal_spec in Hp.
    destruct Hp as (k & -> & _). lia.
Qed.

(** X16: how stations are shared out among the transformers. Without a
    replay, [_load_transformers] builds one transformer per number below
    [number_of_transformers], in order, and hands the constructor of
    transformer [i] exactly the positions of [cs_transformers] that hold
    [i], in ascending order: a station is among the stations of a
    transformer if and only if it was assigned to it, so no station
    belongs to two transformers. *)
Theorem transformers_partition_stations
    (Transformer_new : Z -> list Z -> Transformer)
    (number_of_transformers : Z) (cs_transformers : list Z) :
  (forall i ids, cs_ids (Transformer_new i ids) = ids) ->
  let transformers :=
    _load_transformers Transformer_new None number_of_transformers
                       cs_transformers in
  length transformers = Z.to_nat number_of_transformers
  /\ forall (i : nat) t,
       transformers !! i = Some t ->
       StronglySorted Z.lt (cs_ids t)
       /\ forall p : nat,
            In (Z.of_nat p) (cs_ids t)
            <-> cs_transformers !! p = Some (Z.of_nat i).
Proof.
  intros Hnew. cbn. unfold range. rewrite !length_map, length_seq.
  split; [reflexivity|].
  intros i t Ht.
  rewrite map_map in Ht.
  change (map ?f ?l !! i) with (List.map f l !! i) in Ht.
  assert (Hi : (i < Z.to_nat number_of_transformers)%nat).
  { apply lookup_lt_Some in Ht. now rewrite length_map, length_seq in Ht. }
  assert (Ht' : t = Transformer_new (Z.of_nat i)
                      (where_equal (Z.of_nat i) 0 cs_transformers)).
  { pose proof (nth_error_map
                  (fun x => Transformer_new (Z.of_nat x)
                              (where_equal (Z.of_nat x) 0 cs_transformers))
                  i (seq 0 (Z.to_nat number_of_transformers))) as Hm.
    rewrite nth_error_seq in Hm.
    destruct (Nat.ltb_spec i (Z.to_nat number_of_transformers)); [|lia].
    cbn in Hm.
    rewrite lookup_is_nth_error in Ht. congruence. }
  subst t. rewrite Hnew. split; [apply where_equal_sorted|].
  intros p. rewrite where_equal_spec. cbn. split.
  - intros (k & Hk & Hl). apply Nat2Z.inj in Hk. now subst k.
  - intros Hp. exists p. auto.
Qed.

End Loaders.

(** ** The further properties on the station double *)

Section FurtherOnTheStationDouble.

#[local] Existing Instance mock.

Lemma step_bookkeeping_witness :
  exists obs reward d s' tr,
    step Ex.random_city Ex.random_input = (Returned obs reward d, s', tr)
    /\ current_ev_arrived s' = 1
    /\ current_ev_departed s' = 0
    /\ total_evs_spawned s' = 1
    /\ current_evs_parked s' = 1
    /\ sim_date s' = 5.
Proof.
  eexists _, _, _, _, _.
  assert (H : step Ex.random_city Ex.random_input = (Returned _ _ _, _, _))
    by (vm_compute; reflexivity).
  split; [exact H|].
  exact (step_bookkeeping _ _ _ _ _ _ _ H).
Defined.

Lemma step_records_spawned_evs_witness :
  exists obs reward d s' tr,
    step Ex.random_city Ex.random_input = (Returned obs reward d, s', tr)
    /\ EVs s' = [mkEV None 0 20%Q 1 9].
Proof.
  eexists _, _, _, _, _.
  assert (H : step Ex.random_city Ex.random_input = (Returned _ _ _, _, _))
    by (vm_compute; reflexivity).
  split; [exact H|].
  exact (step_records_spawned_evs _ _ _ _ _ _ _ H).
Defined.

Lemma actions_are_partitioned_witness :
  Py.len (actions Ex.two_actions) = total_ports Ex.two_stations
  /\ exists obs reward d s' tr,
       step Ex.two_stations Ex.two_actions = (Returned obs reward d, s', tr)
       /\ slices tr = [[0.5%Q]; [(-0.5)%Q]]
       /\ concat (slices tr) = actions Ex.two_actions.
Proof.
  split; [reflexivity|].
  eexists _, _, _, _, _.
  assert (H : step Ex.two_stations Ex.two_actions = (Returned _ _ _, _, _))
    by (vm_compute; reflexivity).
  split; [exact H|]. split; [reflexivity|].
  refine (proj1 (actions_are_partitioned Ex.two_actions Ex.two_stations
                   _ _ _ _ _ _ eq_refl H)).
  repeat constructor; cbn; lia.
Defined.

Lemma stations_get_current_prices_witness :
  exists o s' tr c c',
    step Ex.two_stations Ex.two_actions = (o, s', tr)
    /\ In (CsStep 1 c [(-0.5)%Q] (-0.05)%Q 0.1%Q c' (inr (5%Q, [1%Q]))) tr
    /\ charging_stations Ex.two_stations !! 1%nat = Some c
    /\ Py.index2 (charge_prices (config Ex.two_stations)) (id c) 0
       = Some (-0.05)%Q.
Proof.
  eexists _, _, _, _, _.
  assert (H : step Ex.two_stations Ex.two_actions = (_, _, _))
    by (vm_compute; reflexivity).
  split; [exact H|].
  match type of H with
  | _ = (_, _, ?t) =>
      assert (Hin : In (CsStep 1 _ [(-0.5)%Q] (-0.05)%Q 0.1%Q _
                               (inr (5%Q, [1%Q]))) t)
        by (right; left; reflexivity)
  end.
  split; [exact Hin|].
  destruct (stations_get_current_prices _ _ _ _ _ H _ _ _ _ _ _ _ Hin)
    as (Hc & Hcp & _).
  split; [exact Hc|exact Hcp].
Defined.

Lemma grid_step_never_returns_witness :
  simulate_grid (config Ex.grid_city) = true
  /\ exists o s' tr e,
       step Ex.grid_city Ex.two_actions = (o, s', tr)
       /\ o = Raised e
       /\ e = Engine NotImplementedError_grid
       /\ current_step s' = current_step Ex.grid_city + 1
       /\ done s' = false.
Proof.
  split; [reflexivity|].
  assert (H : step Ex.grid_city Ex.two_actions
              = (Raised (Engine NotImplementedError_grid), _, _))
    by (vm_compute; reflexivity).
  destruct (grid_step_never_returns Ex.two_actions Ex.grid_city _ _ _
              eq_refl H)
    as (e & He & Hg).
  inversion He; subst e.
  destruct (Hg eq_refl) as (Hs & _ & Hd).
  eexists _, _, _, _. split; [exact H|].
  split; [reflexivity|]. split; [reflexivity|]. split; [exact Hs|exact Hd].
Defined.

Lemma step_exceptions_witness :
  done Ex.clash_city = false
  /\ exists x s' tr tr0 p before ev after,
       step Ex.clash_city Ex.idle_input = (Raised (In_spawn_ev x), s', tr)
       /\ tr = tr0 ++ [SpawnEv p before ev after (Some x)].
Proof.
  split; [reflexivity|].
  assert (H : step Ex.clash_city Ex.idle_input
              = (Raised (In_spawn_ev _), _, _))
    by (vm_compute; reflexivity).
  destruct (step_exceptions Ex.idle_input Ex.clash_city _ _ _ eq_refl H)
    as (tr0 & p & before & ev & after & Htr).
  eexists _, _, _, tr0, p, before, ev, after. split; [exact H|exact Htr].
Defined.


Lemma done_is_final_witness :
  exists obs reward s' tr,
    step Ex.unhappy_city Ex.idle_input = (Returned obs reward true, s', tr)
    /\ run s' [Ex.idle_input; Ex.no_actions]
       = ([Raised (Engine AssertionError_episode_done);
           Raised (Engine AssertionError_episode_done)], s').
Proof.
  eexists _, _, _, _.
  assert (H : step Ex.unhappy_city Ex.idle_input = (Returned _ _ true, _, _))
    by (vm_compute; reflexivity).
  split; [exact H|].
  exact (done_is_final _ _ _ _ _ _ [Ex.idle_input; Ex.no_actions] H).
Defined.

Lemma run_advances_clock_witness :
  exists outs s',
    run Ex.ten_step_city (repeat Ex.idle_input 3) = (outs, s')
    /\ forallb returned outs = true
    /\ current_step s' = 3 /\ sim_date s' = 15
    /\ config s' = config Ex.ten_step_city.
Proof.
  eexists _, _.
  assert (H : run Ex.ten_step_city (repeat Ex.idle_input 3) = (_, _))
    by (vm_compute; reflexivity).
  split; [exact H|].
  assert (Hr : forallb returned
                 (fst (run Ex.ten_step_city (repeat Ex.idle_input 3))) = true)
    by (vm_compute; reflexivity).
  rewrite H in Hr. split; [exact Hr|].
  exact (run_advances_clock _ _ _ _ H Hr).
Defined.

Lemma profile_mode_spawns_witness :
  ev_profiles Ex.scan_city
  = Some [Ex.ev_past; Ex.ev_a; Ex.ev_late; Ex.ev_b]
  /\ exists obs reward d s' tr,
       step Ex.scan_city Ex.idle_input = (Returned obs reward d, s', tr)
       /\ spawned_evs tr = [Ex.ev_a].
Proof.
  split; [reflexivity|].
  eexists _, _, _, _, _.
  assert (H : step Ex.scan_city Ex.idle_input = (Returned _ _ _, _, _))
    by (vm_compute; reflexivity).
  split; [exact H|].
  exact (proj1 (profile_mode_spawns Ex.scan_city Ex.idle_input _ _ _ _ _ _
                  eq_refl H)).
Defined.

Lemma profile_mode_ignores_draws_witness :
  ev_profiles Ex.scan_city <> None
  /\ step Ex.scan_city (mkInput [0%Q] (Ex.draws 0.5%Q 20%Q 8))
     = step Ex.scan_city (mkInput [0%Q] (Ex.draws 0.9%Q 48%Q 14)).
Proof.
  assert (Hp : ev_profiles Ex.scan_city <> None) by discriminate.
  split; [exact Hp|].
  exact (profile_mode_ignores_draws Ex.scan_city [0%Q] _ _ Hp).
Defined.

Lemma reset_keeps_profile_cursor_witness :
  ev_profiles Ex.spent_city = Some [Ex.ev_a]
  /\ Py.len [Ex.ev_a] <= total_evs_spawned Ex.spent_city
  /\ current_step (snd (reset Ex.spent_city)) = 0
  /\ exists o s' tr,
       step (snd (reset Ex.spent_city)) Ex.idle_input = (o, s', tr)
       /\ total_evs_spawned (snd (reset Ex.spent_city)) = 1
       /\ spawns tr = [].
Proof.
  split; [reflexivity|].
  assert (Hl : Py.len [Ex.ev_a] <= total_evs_spawned Ex.spent_city)
    by (vm_compute; discriminate).
  split; [exact Hl|]. split; [reflexivity|].
  eexists _, _, _.
  assert (H : step (snd (reset Ex.spent_city)) Ex.idle_input = (_, _, _))
    by (vm_compute; reflexivity).
  split; [exact H|].
  exact (reset_keeps_profile_cursor Ex.spent_city _ _ _ _ _ eq_refl Hl H).
Defined.

Lemma random_mode_spawn_decisions_witness :
  ev_profiles Ex.random_city = None
  /\ exists obs reward d s' tr,
       step Ex.random_city Ex.random_input = (Returned obs reward d, s', tr)
       /\ map spawn_position (spawns tr) = [0%nat].
Proof.
  split; [reflexivity|].
  eexists _, _, _, _, _.
  assert (H : step Ex.random_city Ex.random_input = (Returned _ _ _, _, _))
    by (vm_compute; reflexivity).
  split; [exact H|].
  exact (random_mode_spawn_decisions Ex.random_input Ex.random_city
           _ _ _ _ _ eq_refl H).
Defined.

Lemma prices_cover_the_episode_witness :
  shaped 1 (Z.to_nat (simulation_length (config Ex.clash_city)))
         (charge_prices (config Ex.clash_city))
  /\ 0 <= current_step Ex.clash_city < simulation_length (config Ex.clash_city)
  /\ exists e s' tr,
       step Ex.clash_city Ex.idle_input = (Raised e, s', tr)
       /\ e <> Engine IndexError_prices.
Proof.
  assert (Hc : shaped 1 (Z.to_nat (simulation_length (config Ex.clash_city)))
                      (charge_prices (config Ex.clash_city)))
    by (split; [reflexivity|repeat constructor]).
  assert (Hd : shaped 1 (Z.to_nat (simulation_length (config Ex.clash_city)))
                      (discharge_prices (config Ex.clash_city)))
    by (split; [reflexivity|repeat constructor]).
  assert (Ht : 0 <= current_step Ex.clash_city
               < simulation_length (config Ex.clash_city))
    by (cbn; lia).
  split; [exact Hc|]. split; [exact Ht|].
  eexists _, _, _.
  assert (H : step Ex.clash_city Ex.idle_input = (Raised _, _, _))
    by (vm_compute; reflexivity).
  split; [exact H|].
  refine (prices_cover_the_episode Ex.idle_input Ex.clash_city 1 _ _ _
            Hc Hd _ Ht H).
  repeat constructor; cbn; lia.
Defined.

Lemma generated_prices_signs_witness :
  _load_electricity_prices None false
    [[(-0.25)%Q; 0.5%Q]; [0%Q; 1%Q]] [[0.25%Q; (-0.5)%Q]; [0%Q; (-1)%Q]]
  = ([[(-0.25)%Q; (-0.5)%Q]; [0%Q; (-1)%Q]],
     [[0.25%Q; 0.5%Q]; [0%Q; 1%Q]])
  /\ Forall (Forall (fun p => (p <= 0)%Q))
            (fst (_load_electricity_prices None false
                    [[(-0.25)%Q; 0.5%Q]; [0%Q; 1%Q]]
                    [[0.25%Q; (-0.5)%Q]; [0%Q; (-1)%Q]])).
Proof.
  split; [vm_compute; reflexivity|].
  assert (Hc : shaped 2 2 [[(-0.25)%Q; 0.5%Q]; [0%Q; 1%Q]])
    by (split; [reflexivity|repeat constructor]).
  assert (Hd : shaped 2 2 [[0.25%Q; (-0.5)%Q]; [0%Q; (-1)%Q]])
    by (split; [reflexivity|repeat constructor]).
  pose proof (generated_prices_signs None false _ _ 2 2 (or_introl eq_refl)
                Hc Hd) as H.
  exact (proj1 (proj2 (proj2 H))).
Defined.

Lemma transformers_partition_stations_witness :
  _load_transformers Ex.transformer_of None 2 [1; 0; 1]
  = [Ex.transformer_of 0 [1]; Ex.transformer_of 1 [0; 2]]
  /\ (In (Z.of_nat 2) (cs_ids (Ex.transformer_of 1 [0; 2]))
      <-> [1; 0; 1] !! 2%nat = Some (Z.of_nat 1)).
Proof.
  split; [reflexivity|].
  assert (Hn : forall i ids, cs_ids (Ex.transformer_of i ids) = ids)
    by reflexivity.
  pose proof (transformers_partition_stations Ex.transformer_of 2 [1; 0; 1] Hn)
    as (_ & H).
  exact (proj2 (H 1%nat _ eq_refl) 2%nat).
Defined.

End FurtherOnTheStationDouble.
